(** * year_sheet: the calendar grid of [YearSheet], embedded and verified

    A shallow embedding of [year_sheet.py].  The class [YearSheet] holds a
    per-day series of IEEE binary64 values ([np.array] of [float64]) and a
    calendar year; from them it derives the (week, weekday) grid coordinates
    [_x] and [_y] and the weekly sums [_week_load_data].

    Conventions of the embedding:
    - Python [int] is [Z]; [//] and [%] are [Z.div] and [Z.modulo] (both
      floor towards minus infinity, as in Python);
    - [float64] is Rocq's primitive [float], so the arithmetic on the day
      values is the IEEE arithmetic the program runs;
    - a one-dimensional [np.array] is a [list];
    - a raised exception is a value of [exn]; computations that may raise
      and that consume the global numpy random state live in the monad [M];
    - [calendar.isleap], [calendar.weekday] and the ordinal arithmetic of
      [datetime.date] are transcribed from CPython's [calendar.py] and
      [_pydatetime.py]. *)

From Stdlib Require Import String ZArith List Bool Lia Floats Sorted.
Import ListNotations.

Local Open Scope Z_scope.

(** ** The standard library pieces the program calls *)

Module calendar.

(** [calendar.isleap]:
    [year % 4 == 0 and (year % 100 != 0 or year % 400 == 0)]. *)
Definition isleap (year : Z) : bool :=
  (year mod 4 =? 0) && (negb (year mod 100 =? 0) || (year mod 400 =? 0)).

(** [datetime.MINYEAR], [datetime.MAXYEAR]. *)
Definition MINYEAR : Z := 1.
Definition MAXYEAR : Z := 9999.

(** [_pydatetime._days_before_year]: days before January 1 of [year]. *)
Definition _days_before_year (year : Z) : Z :=
  let y := year - 1 in
  y * 365 + y / 4 - y / 100 + y / 400.

(** [_pydatetime._DAYS_BEFORE_MONTH], index 0 is the [-1] placeholder. *)
Definition _DAYS_BEFORE_MONTH : list Z :=
  [-1; 0; 31; 59; 90; 120; 151; 181; 212; 243; 273; 304; 334].

(** [_pydatetime._days_before_month]:
    [_DAYS_BEFORE_MONTH[month] + (month > 2 and _is_leap(year))]. *)
Definition _days_before_month (year month : Z) : Z :=
  nth (Z.to_nat month) _DAYS_BEFORE_MONTH 0
  + (if (2 <? month) && isleap year then 1 else 0).

(** [_pydatetime._ymd2ord]: the proleptic Gregorian ordinal, January 1 of
    year 1 being day 1. *)
Definition _ymd2ord (year month day : Z) : Z :=
  _days_before_year year + _days_before_month year month + day.

(** The guard of [calendar.weekday] (CPython 3.8 and later): a year
    outside [MINYEAR..MAXYEAR] is replaced by [2000 + year % 400]. *)
Definition clamp_year (year : Z) : Z :=
  if (MINYEAR <=? year) && (year <=? MAXYEAR) then year
  else 2000 + year mod 400.

(** [calendar.weekday]: 0 is Monday, 6 is Sunday;
    [date.weekday()] is [(toordinal() + 6) % 7]. *)
Definition weekday (year month day : Z) : Z :=
  (_ymd2ord (clamp_year year) month day + 6) mod 7.

(** [date.isoweekday()] of the same date: [toordinal() % 7 or 7], 1 is
    Monday, 7 is Sunday. *)
Definition isoweekday (year month day : Z) : Z :=
  let r := _ymd2ord (clamp_year year) month day mod 7 in
  if r =? 0 then 7 else r.

End calendar.

(** ** Exceptions and the monad of the constructor *)

(** The exceptions that can leave the modelled code.  [LoadError] stands for
    whatever [open] or [np.loadtxt] raise on an unreadable or non-numeric
    file; its text is numpy's or the operating system's, never one of the two
    messages of this program. *)
Inductive exn : Type :=
| ValueError (msg : string)
| AssertionError
| LoadError.

Inductive Result (A : Type) : Type :=
| Ok (a : A)
| Raise (e : exn).
Arguments Ok {A} a.
Arguments Raise {A} e.

(** The global numpy generator, as the sequence of normal samples it is going
    to hand out. *)
Definition RandomState : Type := nat -> float.

(** A computation that reads and advances the generator and may raise. *)
Definition M (A : Type) : Type := RandomState -> Result (A * RandomState).

Definition ret {A} (a : A) : M A := fun s => Ok (a, s).
Definition bind {A B} (m : M A) (k : A -> M B) : M B :=
  fun s => match m s with
           | Ok (a, s') => k a s'
           | Raise e => Raise e
           end.
Definition lift {A} (r : Result A) : M A :=
  fun s => match r with Ok a => Ok (a, s) | Raise e => Raise e end.

Declare Scope m_scope.
Delimit Scope m_scope with M.
Notation "x <- m ;; k" := (bind m (fun x => k))
  (at level 61, m at next level, right associativity) : m_scope.

(** ** numpy *)

Module np.

(** [np.random.normal(size=n)]: the next [n] samples, in order; the
    generator moves past them. *)
Definition random_normal (size : nat) : M (list float) :=
  fun s => Ok (map s (seq 0 size), fun i => s (i + size)%nat).

(** [ndarray.min()]: a zero-size array raises; on values that are not NaN
    the result is a least element.  Which of several equal least elements
    is returned (zeros of either sign) numpy does not fix: the model keeps
    the first.  A NaN in the array, which numpy propagates, is outside the
    model; [np.random.normal] yields none. *)
Definition min (a : list float) : Result float :=
  match a with
  | [] => Raise (ValueError "zero-size array to reduction operation minimum which has no identity")
  | h :: t => Ok (fold_left (fun acc v => if (v <? acc)%float then v else acc) t h)
  end.

(** [data - m]: broadcast subtraction of a scalar. *)
Definition sub_scalar (a : list float) (m : float) : list float :=
  map (fun v => (v - m)%float) a.

(** [np.zeros(n)] and [np.full(n, v)], read as integers (the program
    converts the concatenated array with [astype(int)]). *)
Definition zeros (n : Z) : list Z := repeat 0 (Z.to_nat n).
Definition full (n : Z) (v : Z) : list Z := repeat v (Z.to_nat n).

(** [np.arange(a, b)] for integers. *)
Definition arange (a b : Z) : list Z :=
  map (fun i => a + Z.of_nat i) (seq 0 (Z.to_nat (b - a))).

(** Python's [range(a, b)]. *)
Definition range (a b : Z) : list Z := arange a b.

(** [np.concatenate] of a list of arrays. *)
Definition concatenate {A} (l : list (list A)) : list A := concat l.

End np.

(** ** The class [YearSheet] *)

Record YearSheet : Type := {
  data : list float;
  year : Z;
  week_load : bool
}.

(** The file system as [_parse_file] sees it: what [np.loadtxt] returns for
    the file at a path, [None] when [open] or [np.loadtxt] raise.  The files
    of the model hold one value per line, so that the array is
    one-dimensional; a file with several values per line loads as a
    two-dimensional array, of which the model keeps the values in order and
    their number ([data.size]) only. *)
Definition Files : Type := string -> option (list float).

(** Python truthiness of the constructor's arguments: [None] and the empty
    string are false for [source]; [None] and [0] are false for [year]. *)
Definition truthy_source (source : option string) : bool :=
  match source with
  | None => false
  | Some s => negb (String.eqb s EmptyString)
  end.

Definition truthy_year (y : option Z) : bool :=
  match y with
  | None => false
  | Some n => negb (n =? 0)
  end.

Definition size_msg : string :=
  "The file contains less than 365 or more than 366 entries.".
Definition mismatch_msg : string := "Data size and year mismatch.".

(** [_generate_random_data(days)], for a count [days >= 0] (the program
    passes 365 or 366). *)
Definition _generate_random_data (days : nat) : M (list float) :=
  (data <- np.random_normal days ;;
   m <- lift (np.min data) ;;
   ret (np.sub_scalar data m))%M.

(** [_parse_file(source)]. *)
Definition _parse_file (fs : Files) (source : string) : Result (list float) :=
  match fs source with
  | None => Raise LoadError
  | Some data =>
      if negb ((length data =? 365)%nat || (length data =? 366)%nat)
      then Raise (ValueError size_msg)
      else Ok data
  end.

(** [_get_year_from_data()], on the data already stored in [self]. *)
Definition _get_year_from_data (data : list float) : Z :=
  if (length data =? 365)%nat then 2021 else 2020.

(** [match_data_and_year()]. *)
Definition match_data_and_year (self : YearSheet) : Result unit :=
  let leap_void :=
    (length (data self) =? 365)%nat && calendar.isleap (year self) in
  let regular_void :=
    (length (data self) =? 366)%nat && negb (calendar.isleap (year self)) in
  if leap_void || regular_void then Raise (ValueError mismatch_msg)
  else Ok tt.

(** The arguments of the constructor after Python's truthiness test: a
    falsy argument ([None], the empty string, [0]) counts as not given. *)
Definition given_source (source : option string) : option string :=
  if truthy_source source then source else None.

Definition given_year (y : option Z) : option Z :=
  if truthy_year y then y else None.

(** [__init__(source, year, bare)]: the four branches of the [if]/[elif]
    chain, in the order of the source. *)
Definition __init__ (fs : Files) (source : option string) (y : option Z)
    (bare : bool) : M YearSheet :=
  let wl := if bare then false else true in
  match given_source source, given_year y with
  | None, None =>
      (d <- _generate_random_data 365 ;;
       ret {| data := d; year := _get_year_from_data d; week_load := wl |})%M
  | Some src, None =>
      (d <- lift (_parse_file fs src) ;;
       ret {| data := d; year := _get_year_from_data d; week_load := wl |})%M
  | None, Some yr =>
      (d <- (if calendar.isleap yr then _generate_random_data 366
             else _generate_random_data 365) ;;
       ret {| data := d; year := yr; week_load := wl |})%M
  | Some src, Some yr =>
      (d <- lift (_parse_file fs src) ;;
       let self := {| data := d; year := yr; week_load := wl |} in
       _ <- lift (match_data_and_year self) ;;
       ret self)%M
  end.

(** [_get_first_week_days()]. *)
Definition _get_first_week_days (self : YearSheet) : Z :=
  7 - calendar.weekday (year self) 1 1.

(** [_get_last_week_days()]. *)
Definition _get_last_week_days (self : YearSheet) : Z :=
  calendar.weekday (year self) 12 31 + 1.

(** The array [x] that [_x] concatenates, before its [assert]. *)
Definition x_array (self : YearSheet) : list Z :=
  let first_week := np.zeros (_get_first_week_days self) in
  let last_week := np.full (_get_last_week_days self) 52 in
  let inner_weeks :=
    np.concatenate (map (fun n => np.full 7 n) (np.range 1 52)) in
  np.concatenate [first_week; inner_weeks; last_week].

(** [_x()]: [assert x.size == self.data.size] raises [AssertionError]. *)
Definition _x (self : YearSheet) : Result (list Z) :=
  let x := x_array self in
  if (length x =? length (data self))%nat then Ok x else Raise AssertionError.

(** The array [y] that [_y] concatenates, before its [assert]. *)
Definition y_array (self : YearSheet) : list Z :=
  let first_week := np.arange 1 (_get_first_week_days self + 1) in
  let last_week := np.arange 1 (_get_last_week_days self + 1) in
  let inner_weeks :=
    np.concatenate (map (fun _ => np.arange 1 8) (np.range 1 52)) in
  np.concatenate [first_week; inner_weeks; last_week].

(** [_y()]. *)
Definition _y (self : YearSheet) : Result (list Z) :=
  let y := y_array self in
  if (length y =? length (data self))%nat then Ok y else Raise AssertionError.

(** ** pandas *)

Module pd.

(** A row of the frame built by [_yearsheet_data_as_df]. *)
Record row : Type := { x : Z; y : Z; day_values : float }.

Definition DataFrame : Type := list row.

(** [pd.DataFrame({'x': xs, 'y': ys, 'day_values': vs})] on
    one-dimensional columns: columns of unequal length are refused. *)
Definition make (xs ys : list Z) (vs : list float) : Result DataFrame :=
  if ((length xs =? length ys) && (length ys =? length vs))%nat
  then Ok (map (fun t => {| x := fst (fst t); y := snd (fst t);
                            day_values := snd t |})
               (combine (combine xs ys) vs))
  else Raise (ValueError "All arrays must be of the same length").

(** The group keys of [groupby('x')], which sorts them: each distinct
    value of the column once, in increasing order. *)
Fixpoint insert_key (k : Z) (keys : list Z) : list Z :=
  match keys with
  | [] => [k]
  | h :: t =>
      if k <? h then k :: keys
      else if k =? h then keys
      else h :: insert_key k t
  end.

Definition group_keys (df : DataFrame) : list Z :=
  fold_right insert_key [] (map x df).

(** The rows of one group, in frame order. *)
Definition group (df : DataFrame) (k : Z) : DataFrame :=
  filter (fun r => x r =? k) df.

(** One step of the group sum of pandas ([group_sum] of
    [pandas/_libs/groupby.pyx], pandas 1.2 to 2.0): a NaN value is skipped;
    any other value is added by Kahan's compensated summation, the pair
    being the running sum and its compensation.  (From pandas 2.1 on a
    compensation that has become NaN is also reset to 0.) *)
Definition kahan_step (acc : float * float) (val : float) : float * float :=
  if is_nan val then acc
  else
    let y := (val - snd acc)%float in
    let t := (fst acc + y)%float in
    (t, (t - fst acc - y)%float).

(** The sum of the values of one group, taken in row order from [0.0]. *)
Definition sum (vs : list float) : float :=
  fst (fold_left kahan_step vs (0%float, 0%float)).

(** [df.groupby('x').day_values.sum().reset_index()]: one
    [(x, day_values)] row per key. *)
Definition groupby_x_sum (df : DataFrame) : list (Z * float) :=
  map (fun k => (k, sum (map day_values (group df k)))) (group_keys df).

End pd.

(** [_yearsheet_data_as_df()]. *)
Definition _yearsheet_data_as_df (self : YearSheet) : Result pd.DataFrame :=
  match _x self with
  | Raise e => Raise e
  | Ok xs =>
      match _y self with
      | Raise e => Raise e
      | Ok ys => pd.make xs ys (data self)
      end
  end.

(** [_week_load_data()]. *)
Definition _week_load_data (self : YearSheet) : Result (list (Z * float)) :=
  match _yearsheet_data_as_df self with
  | Raise e => Raise e
  | Ok df => Ok (pd.groupby_x_sum df)
  end.

(** A leap year that begins on a Sunday: the only kind of year whose days do
    not fill one partial week, 51 full weeks and one more partial week. *)
Definition sunday_leap (y : Z) : bool :=
  calendar.isleap y && (calendar.weekday y 1 1 =? 6).

(** The number of days of the year. *)
Definition days_in_year (y : Z) : Z := if calendar.isleap y then 366 else 365.

(** ** The weeks of the grid as runs of days *)

(** A run: a week index and the number of consecutive days that carry it. *)
Definition run_of (b : Z * nat) : list Z := repeat (fst b) (snd b).

Definition runs (blocks : list (Z * nat)) : list Z := flat_map run_of blocks.

(** The runs [x_array] is made of: week 0, the 51 inner weeks, week 52. *)
Definition week_blocks (self : YearSheet) : list (Z * nat) :=
  (0, Z.to_nat (_get_first_week_days self))
  :: map (fun n => (n, 7%nat)) (np.range 1 52)
  ++ [(52, Z.to_nat (_get_last_week_days self))].

(** Cutting a column into the consecutive slices of the runs, the first
    slice starting at position [o]. *)
Fixpoint slices {A} (o : nat) (blocks : list (Z * nat)) (vs : list A)
    : list (Z * list A) :=
  match blocks with
  | [] => []
  | (k, w) :: bs => (k, firstn w (skipn o vs)) :: slices (w + o) bs vs
  end.

(** Position of the first day of week [k] in the series, and the number of
    days of that week. *)
Definition week_start (self : YearSheet) (k : Z) : nat :=
  if k =? 0 then 0%nat
  else (7 * (Z.to_nat k - 1) + Z.to_nat (_get_first_week_days self))%nat.

Definition week_width (self : YearSheet) (k : Z) : nat :=
  if k =? 0 then Z.to_nat (_get_first_week_days self)
  else if k =? 52 then Z.to_nat (_get_last_week_days self)
  else 7%nat.

(** The day values of week [k], in day order. *)
Definition week_values (self : YearSheet) (k : Z) : list float :=
  firstn (week_width self k) (skipn (week_start self k) (data self)).

(** ** The coordinates by position *)

(** The week index and the weekday index of the day at position [i] of the
    year, computed from the position alone. *)
Definition x_at (self : YearSheet) (i : Z) : Z :=
  let f := _get_first_week_days self in
  if i <? f then 0
  else if i <? f + 357 then (i - f) / 7 + 1
  else 52.

Definition y_at (self : YearSheet) (i : Z) : Z :=
  let f := _get_first_week_days self in
  if i <? f then i + 1
  else if i <? f + 357 then (i - f) mod 7 + 1
  else i - (f + 357) + 1.

(** The ISO weekday of the day [i] days after January 1 of year [y]:
    [date.fromordinal(date(y, 1, 1).toordinal() + i).isoweekday()], with the
    year guarded as [calendar.weekday] guards it. *)
Definition isoweekday_of_day (y : Z) (i : Z) : Z :=
  let o := calendar._ymd2ord (calendar.clamp_year y) 1 1 + i in
  if o mod 7 =? 0 then 7 else o mod 7.

(** The number of cells of the grid: 359 for a leap year that begins on a
    Sunday, the number of days of the year otherwise. *)
Definition grid_cells (y : Z) : Z :=
  if sunday_leap y then 359 else days_in_year y.

(** ** The order of binary64 values

    [SFkey] places the non-NaN values on a lexicographic scale (sign class,
    exponent, mantissa) on which [<] of floats is the strict order
    [key_lt]. *)

Definition SFkey (f : spec_float) : Z * Z * Z :=
  match f with
  | S754_zero _ => (0, 0, 0)
  | S754_nan => (0, 0, 0)
  | S754_infinity false => (2, 0, 0)
  | S754_infinity true => (-2, 0, 0)
  | S754_finite false m e => (1, e, Zpos m)
  | S754_finite true m e => (-1, - e, Zneg m)
  end.

Definition key_lt (a b : Z * Z * Z) : Prop :=
  fst (fst a) < fst (fst b) \/
  (fst (fst a) = fst (fst b) /\
   (snd (fst a) < snd (fst b) \/
    (snd (fst a) = snd (fst b) /\ snd a < snd b))).

(** The values that compare [>= 0]: zeros, positive finite values and
    plus infinity. *)
Definition nonneg_sf (f : spec_float) : Prop :=
  match f with
  | S754_zero _ | S754_finite false _ _ | S754_infinity false => True
  | _ => False
  end.

(** Zeros and canonical finite values. *)
Definition finite_sf (f : spec_float) : Prop :=
  match f with
  | S754_zero _ => True
  | S754_finite _ m e => bounded prec emax m e = true
  | _ => False
  end.

(** ** Sample runs *)

Definition sheet_of (y : Z) (d : list float) : YearSheet :=
  {| data := d; year := y; week_load := true |}.

Definition ones (n : nat) : list float := repeat 1%float n.

(** A file system holding one file. *)
Definition one_file (name : string) (d : list float) : Files :=
  fun path => if String.eqb path name then Some d else None.

(** A generator whose samples alternate between two values. *)
Definition sample_state : RandomState :=
  fun i => if Nat.even i then 1.5%float else (-2.25)%float.

Example first_week_2021 : _get_first_week_days (sheet_of 2021 (ones 365)) = 3.
Proof. reflexivity. Qed.

Example last_week_2021 : _get_last_week_days (sheet_of 2021 (ones 365)) = 5.
Proof. reflexivity. Qed.

Example first_week_2012 : _get_first_week_days (sheet_of 2012 (ones 366)) = 1.
Proof. reflexivity. Qed.

Example last_week_2012 : _get_last_week_days (sheet_of 2012 (ones 366)) = 1.
Proof. reflexivity. Qed.

Example generate_zero_days :
  exists msg, _generate_random_data 0 sample_state = Raise (ValueError msg).
Proof. eexists. reflexivity. Qed.

Example x_2012 : _x (sheet_of 2012 (ones 366)) = Raise AssertionError.
Proof. vm_compute. reflexivity. Qed.

Example wl_2021_head :
  match _week_load_data (sheet_of 2021 (ones 365)) with
  | Ok ((k, v) :: _) => k = 0 /\ v = 3%float
  | _ => False
  end.
Proof. vm_compute. split; reflexivity. Qed.

(** ** Calendar arithmetic *)

Section CalendarFacts.

Import calendar.

Lemma isleap_true_iff (y : Z) :
  isleap y = true <->
  y mod 4 = 0 /\ (y mod 100 <> 0 \/ y mod 400 = 0).
Proof.
  unfold isleap.
  rewrite andb_true_iff, orb_true_iff, negb_true_iff.
  rewrite !Z.eqb_eq, Z.eqb_neq. tauto.
Qed.

(** The Gregorian rule repeats every 400 years, so the guard of
    [calendar.weekday] keeps the leap status. *)
Lemma isleap_clamp_year (y : Z) : isleap (clamp_year y) = isleap y.
Proof.
  unfold clamp_year.
  destruct ((MINYEAR <=? y) && (y <=? MAXYEAR)); [reflexivity|].
  unfold isleap.
  replace ((2000 + y mod 400) mod 4) with (y mod 4)
    by (Z.div_mod_to_equations; lia).
  replace ((2000 + y mod 400) mod 100) with (y mod 100)
    by (Z.div_mod_to_equations; lia).
  replace ((2000 + y mod 400) mod 400) with (y mod 400)
    by (Z.div_mod_to_equations; lia).
  reflexivity.
Qed.

Lemma weekday_range (y m d : Z) : 0 <= weekday y m d <= 6.
Proof. unfold weekday. pose proof (Z.mod_pos_bound (_ymd2ord (clamp_year y) m d + 6) 7). lia. Qed.

Lemma ord_jan1 (y : Z) : _ymd2ord y 1 1 = _days_before_year y + 1.
Proof. unfold _ymd2ord, _days_before_month. simpl. lia. Qed.

Lemma ord_dec31 (y : Z) :
  _ymd2ord y 12 31 = _days_before_year y + 365 + (if isleap y then 1 else 0).
Proof.
  unfold _ymd2ord, _days_before_month. simpl.
  destruct (isleap y); lia.
Qed.

(** December 31 falls 364 days after January 1, 365 in a leap year. *)
Lemma weekday_dec31 (y : Z) :
  weekday y 12 31 =
  (weekday y 1 1 + (if isleap y then 1 else 0)) mod 7.
Proof.
  unfold weekday. rewrite ord_jan1, ord_dec31, isleap_clamp_year.
  destruct (isleap y); Z.div_mod_to_equations; lia.
Qed.

Lemma isoweekday_weekday (y m d : Z) : isoweekday y m d = weekday y m d + 1.
Proof.
  unfold isoweekday, weekday. cbv zeta.
  set (o := _ymd2ord (clamp_year y) m d).
  destruct (Z.eqb_spec (o mod 7) 0) as [E|E];
    revert E; Z.div_mod_to_equations; lia.
Qed.

End CalendarFacts.

Section WeekCounts.

Variable self : YearSheet.

Lemma first_week_days_range : 1 <= _get_first_week_days self <= 7.
Proof.
  unfold _get_first_week_days.
  pose proof (weekday_range (year self) 1 1). lia.
Qed.

Lemma last_week_days_range : 1 <= _get_last_week_days self <= 7.
Proof.
  unfold _get_last_week_days.
  pose proof (weekday_range (year self) 12 31). lia.
Qed.

Lemma week_days_total :
  _get_first_week_days self + 51 * 7 + _get_last_week_days self =
  if sunday_leap (year self) then 359 else days_in_year (year self).
Proof.
  unfold _get_first_week_days, _get_last_week_days, sunday_leap, days_in_year.
  rewrite weekday_dec31.
  pose proof (weekday_range (year self) 1 1) as R.
  set (w := calendar.weekday (year self) 1 1) in *.
  destruct (calendar.isleap (year self)); cbn [andb];
    destruct (Z.eqb_spec w 6); Z.div_mod_to_equations; lia.
Qed.

End WeekCounts.

(** ** The coordinate arrays *)

Section ListFacts.

(** Indexing into a concatenation of blocks of one width. *)
Lemma nth_error_concat_blocks {A B} (g : A -> list B) (w : nat)
    (l : list A) (i j : nat) :
  (forall a, length (g a) = w) -> (j < w)%nat ->
  nth_error (concat (map g l)) (w * i + j) =
  match nth_error l i with
  | Some a => nth_error (g a) j
  | None => None
  end.
Proof.
  intros Hw Hj. revert i.
  induction l as [|a l IH]; intros i.
  - simpl. destruct i; destruct (w * _ + j)%nat; reflexivity.
  - destruct i as [|i]; simpl concat.
    + rewrite Nat.mul_0_r. simpl.
      apply nth_error_app1. rewrite Hw. exact Hj.
    + replace (w * S i + j)%nat with (length (g a) + (w * i + j))%nat
        by (rewrite Hw; lia).
      rewrite nth_error_app2 by lia.
      replace (length (g a) + (w * i + j) - length (g a))%nat
        with (w * i + j)%nat by lia.
      apply IH.
Qed.

Lemma length_arange (a b : Z) : length (np.arange a b) = Z.to_nat (b - a).
Proof. unfold np.arange. now rewrite length_map, length_seq. Qed.

Lemma nth_error_arange (a b : Z) (i : nat) :
  (i < Z.to_nat (b - a))%nat ->
  nth_error (np.arange a b) i = Some (a + Z.of_nat i).
Proof.
  intros H. unfold np.arange.
  rewrite nth_error_map, nth_error_seq.
  destruct (Nat.ltb_spec i (Z.to_nat (b - a))); [reflexivity | lia].
Qed.

End ListFacts.

Section Grid.

Variable self : YearSheet.

(** The widths of the two partial weeks, as list lengths. *)
Local Abbreviation F := (Z.to_nat (_get_first_week_days self)).
Local Abbreviation L := (Z.to_nat (_get_last_week_days self)).

Lemma x_array_app :
  x_array self =
  repeat 0 F
  ++ concat (map (fun n => np.full 7 n) (np.range 1 52))
  ++ repeat 52 L.
Proof.
  unfold x_array, np.concatenate, np.zeros, np.full at 1.
  cbn [concat]. now rewrite app_nil_r.
Qed.

Lemma y_array_app :
  y_array self =
  np.arange 1 (_get_first_week_days self + 1)
  ++ concat (map (fun _ : Z => np.arange 1 8) (np.range 1 52))
  ++ np.arange 1 (_get_last_week_days self + 1).
Proof.
  unfold y_array, np.concatenate.
  cbn [concat]. now rewrite app_nil_r.
Qed.

Lemma length_x_array : length (x_array self) = (F + 357 + L)%nat.
Proof.
  rewrite x_array_app, !length_app, !repeat_length.
  change (length (concat (map (fun n => np.full 7 n) (np.range 1 52))))
    with 357%nat.
  lia.
Qed.

Lemma length_y_array : length (y_array self) = (F + 357 + L)%nat.
Proof.
  rewrite y_array_app, !length_app, !length_arange.
  change (length (concat (map (fun _ : Z => np.arange 1 8) (np.range 1 52))))
    with 357%nat.
  lia.
Qed.

Lemma grid_size :
  Z.of_nat (F + 357 + L) =
  _get_first_week_days self + 51 * 7 + _get_last_week_days self.
Proof.
  pose proof (first_week_days_range self).
  pose proof (last_week_days_range self).
  lia.
Qed.

(** [_x] and [_y] return their arrays exactly when the series is as long
    as the grid, and raise [AssertionError] otherwise. *)
Lemma _x_ok :
  length (data self) = (F + 357 + L)%nat -> _x self = Ok (x_array self).
Proof.
  intros H. unfold _x. cbv zeta.
  rewrite length_x_array, H, Nat.eqb_refl. reflexivity.
Qed.

Lemma _y_ok :
  length (data self) = (F + 357 + L)%nat -> _y self = Ok (y_array self).
Proof.
  intros H. unfold _y. cbv zeta.
  rewrite length_y_array, H, Nat.eqb_refl. reflexivity.
Qed.

Lemma _x_raises :
  length (data self) <> (F + 357 + L)%nat -> _x self = Raise AssertionError.
Proof.
  intros H. unfold _x. cbv zeta. rewrite length_x_array.
  destruct (Nat.eqb_spec (F + 357 + L) (length (data self)));
    [congruence | reflexivity].
Qed.

Lemma _y_raises :
  length (data self) <> (F + 357 + L)%nat -> _y self = Raise AssertionError.
Proof.
  intros H. unfold _y. cbv zeta. rewrite length_y_array.
  destruct (Nat.eqb_spec (F + 357 + L) (length (data self)));
    [congruence | reflexivity].
Qed.

(** *** Entries of [x_array] *)

Lemma x_first (i : nat) : (i < F)%nat -> nth_error (x_array self) i = Some 0.
Proof.
  intros H. rewrite x_array_app, nth_error_app1 by now rewrite repeat_length.
  now apply nth_error_repeat.
Qed.

Lemma x_inner (k j : nat) :
  (1 <= k <= 51)%nat -> (j < 7)%nat ->
  nth_error (x_array self) (F + 7 * (k - 1) + j) = Some (Z.of_nat k).
Proof.
  intros Hk Hj. rewrite x_array_app.
  rewrite nth_error_app2 by (rewrite repeat_length; lia).
  rewrite repeat_length.
  replace (F + 7 * (k - 1) + j - F)%nat with (7 * (k - 1) + j)%nat by lia.
  rewrite nth_error_app1
    by (change (length (concat (map (fun n => np.full 7 n) (np.range 1 52))))
          with 357%nat; lia).
  rewrite (nth_error_concat_blocks (fun n => np.full 7 n) 7)
    by (intros; try apply repeat_length; lia).
  unfold np.range. rewrite nth_error_arange by (simpl; lia).
  unfold np.full. rewrite nth_error_repeat by (simpl; lia).
  f_equal. lia.
Qed.

Lemma x_last (j : nat) :
  (j < L)%nat -> nth_error (x_array self) (F + 357 + j) = Some 52.
Proof.
  intros H. rewrite x_array_app.
  rewrite nth_error_app2 by (rewrite repeat_length; lia).
  rewrite repeat_length.
  rewrite nth_error_app2
    by (change (length (concat (map (fun n => np.full 7 n) (np.range 1 52))))
          with 357%nat; lia).
  change (length (concat (map (fun n => np.full 7 n) (np.range 1 52))))
    with 357%nat.
  apply nth_error_repeat. lia.
Qed.

(** *** Entries of [y_array] *)

Lemma y_first (i : nat) :
  (i < F)%nat -> nth_error (y_array self) i = Some (Z.of_nat i + 1).
Proof.
  intros H. pose proof (first_week_days_range self).
  rewrite y_array_app, nth_error_app1 by (rewrite length_arange; lia).
  rewrite nth_error_arange by (lia). f_equal. lia.
Qed.

Lemma y_inner (k j : nat) :
  (1 <= k <= 51)%nat -> (j < 7)%nat ->
  nth_error (y_array self) (F + 7 * (k - 1) + j) = Some (Z.of_nat j + 1).
Proof.
  intros Hk Hj. pose proof (first_week_days_range self).
  rewrite y_array_app.
  rewrite nth_error_app2 by (rewrite length_arange; lia).
  rewrite length_arange.
  replace (F + 7 * (k - 1) + j - Z.to_nat (_get_first_week_days self + 1 - 1))%nat
    with (7 * (k - 1) + j)%nat by (lia).
  rewrite nth_error_app1
    by (change (length (concat (map (fun _ : Z => np.arange 1 8) (np.range 1 52))))
          with 357%nat; lia).
  rewrite (nth_error_concat_blocks (fun _ : Z => np.arange 1 8) 7)
    by (intros; try apply length_arange; lia).
  unfold np.range. rewrite nth_error_arange by (simpl; lia).
  rewrite nth_error_arange by (simpl; lia).
  f_equal. lia.
Qed.

Lemma y_last (j : nat) :
  (j < L)%nat ->
  nth_error (y_array self) (F + 357 + j) = Some (Z.of_nat j + 1).
Proof.
  intros H. pose proof (first_week_days_range self).
  rewrite y_array_app.
  rewrite nth_error_app2 by (rewrite length_arange; lia).
  rewrite length_arange.
  rewrite nth_error_app2
    by (change (length (concat (map (fun _ : Z => np.arange 1 8) (np.range 1 52))))
          with 357%nat; lia).
  change (length (concat (map (fun _ : Z => np.arange 1 8) (np.range 1 52))))
    with 357%nat.
  rewrite nth_error_arange by (lia).
  f_equal. lia.
Qed.

End Grid.

(** ** The constructor *)

Section Constructor.

Variable fs : Files.

Lemma random_normal_run (n : nat) (s : RandomState) :
  np.random_normal n s = Ok (map s (seq 0 n), fun i => s (i + n)%nat).
Proof. reflexivity. Qed.

Lemma min_nonempty (h : float) (t : list float) :
  exists m, np.min (h :: t) = Ok m.
Proof. eexists. reflexivity. Qed.

(** A positive number of days always yields a series of that length. *)
Lemma _generate_random_data_ok (n : nat) (s : RandomState) :
  exists m,
    np.min (map s (seq 0 (S n))) = Ok m /\
    _generate_random_data (S n) s =
    Ok (np.sub_scalar (map s (seq 0 (S n))) m, fun i => s (i + S n)%nat).
Proof.
  unfold _generate_random_data, bind, lift, ret, np.random_normal.
  cbn [seq map].
  destruct (min_nonempty (s 0%nat) (map s (seq 1 n))) as [m Hm].
  exists m. now rewrite Hm.
Qed.

Lemma length_sub_scalar (a : list float) (m : float) :
  length (np.sub_scalar a m) = length a.
Proof. apply length_map. Qed.

Lemma _generate_random_data_length (n : nat) (s s' : RandomState) d :
  _generate_random_data n s = Ok (d, s') -> length d = n.
Proof.
  destruct n as [|n].
  - discriminate.
  - destruct (_generate_random_data_ok n s) as (m & _ & E).
    rewrite E. intros [= <- _].
    cbn [length]. now rewrite length_sub_scalar, length_map, length_seq.
Qed.

Lemma size_test (d : list float) :
  negb ((length d =? 365)%nat || (length d =? 366)%nat) = false <->
  length d = 365%nat \/ length d = 366%nat.
Proof. now rewrite negb_false_iff, orb_true_iff, !Nat.eqb_eq. Qed.

Lemma _parse_file_ok (src : string) (d : list float) :
  _parse_file fs src = Ok d <->
  fs src = Some d /\ (length d = 365%nat \/ length d = 366%nat).
Proof.
  unfold _parse_file. destruct (fs src) as [d'|].
  - split.
    + destruct (negb _) eqn:T; [discriminate|].
      intros [= <-]. split; [reflexivity | now apply size_test].
    + intros [[= <-] H]. apply size_test in H. now rewrite H.
  - split; [discriminate | intros [[=] _]].
Qed.

Lemma _parse_file_size_error (src : string) :
  _parse_file fs src = Raise (ValueError size_msg) <->
  exists d, fs src = Some d /\ length d <> 365%nat /\ length d <> 366%nat.
Proof.
  unfold _parse_file. destruct (fs src) as [d'|].
  - split.
    + destruct (negb _) eqn:T; [|discriminate].
      intros _. exists d'. split; [reflexivity|].
      assert (~ (length d' = 365%nat \/ length d' = 366%nat)) as N
        by (rewrite <- size_test, T; discriminate).
      tauto.
    + intros (d & [= <-] & H1 & H2).
      destruct (negb _) eqn:T; [reflexivity|].
      apply size_test in T. tauto.
  - split; [discriminate | intros (d & [=] & _)].
Qed.

Lemma _parse_file_raises (src : string) (e : exn) :
  _parse_file fs src = Raise e -> e = ValueError size_msg \/ e = LoadError.
Proof.
  unfold _parse_file. destruct (fs src) as [d'|].
  - destruct (negb _); [intros [= <-]; auto | discriminate].
  - intros [= <-]; auto.
Qed.

Lemma match_data_and_year_ok (self : YearSheet) :
  match_data_and_year self = Ok tt <->
  ~ (length (data self) = 365%nat /\ calendar.isleap (year self) = true) /\
  ~ (length (data self) = 366%nat /\ calendar.isleap (year self) = false).
Proof.
  unfold match_data_and_year. cbv zeta.
  destruct (Nat.eqb_spec (length (data self)) 365) as [E1|E1];
    destruct (Nat.eqb_spec (length (data self)) 366) as [E2|E2];
    destruct (calendar.isleap (year self)); cbn [andb orb negb];
    split; try discriminate; try tauto; try lia; intuition congruence.
Qed.

Lemma match_data_and_year_raises (self : YearSheet) (e : exn) :
  match_data_and_year self = Raise e -> e = ValueError mismatch_msg.
Proof.
  unfold match_data_and_year. cbv zeta.
  destruct (_ || _); [intros [= <-]; reflexivity | discriminate].
Qed.

(** What a successful construction has done, branch by branch. *)
Lemma __init___ok source y bare s self s' :
  __init__ fs source y bare s = Ok (self, s') ->
  week_load self = negb bare /\
  match given_source source, given_year y with
  | None, None =>
      length (data self) = 365%nat /\ year self = 2021
  | Some src, None =>
      fs src = Some (data self) /\ s' = s /\
      (length (data self) = 365%nat \/ length (data self) = 366%nat) /\
      year self = _get_year_from_data (data self)
  | None, Some yr =>
      year self = yr /\
      length (data self) = (if calendar.isleap yr then 366 else 365)%nat
  | Some src, Some yr =>
      fs src = Some (data self) /\ s' = s /\ year self = yr /\
      (length (data self) = 365%nat \/ length (data self) = 366%nat) /\
      match_data_and_year self = Ok tt
  end.
Proof.
  unfold __init__. cbv zeta.
  destruct (given_source source) as [src|], (given_year y) as [yr|];
    unfold bind, lift, ret.
  - destruct (_parse_file fs src) as [d|] eqn:P; [|discriminate].
    destruct (match_data_and_year _) as [[]|] eqn:Mt; [|discriminate].
    intros [= <- <-]. cbn [data year week_load].
    apply _parse_file_ok in P. destruct bare; tauto.
  - destruct (_parse_file fs src) as [d|] eqn:P; [|discriminate].
    intros [= <- <-]. cbn [data year week_load].
    apply _parse_file_ok in P. destruct bare; tauto.
  - destruct (calendar.isleap yr);
      destruct (_generate_random_data _ s) as [[d s1]|] eqn:G;
      try discriminate; intros [= <- <-]; cbn [data year week_load];
      apply _generate_random_data_length in G; destruct bare; tauto.
  - destruct (_generate_random_data _ s) as [[d s1]|] eqn:G;
      try discriminate; intros [= <- <-]; cbn [data year week_load].
    apply _generate_random_data_length in G.
    unfold _get_year_from_data. rewrite G. destruct bare; auto.
Qed.

(** The size/year invariant of a constructed sheet. *)
Lemma constructed_size source y bare s self s' :
  __init__ fs source y bare s = Ok (self, s') ->
  Z.of_nat (length (data self)) = days_in_year (year self).
Proof.
  intros H. apply __init___ok in H. destruct H as [_ H].
  unfold days_in_year.
  destruct (given_source source) as [src|], (given_year y) as [yr|].
  - destruct H as (_ & _ & Hy & Hl & Hm).
    apply match_data_and_year_ok in Hm.
    destruct (calendar.isleap (year self)); destruct Hl; intuition lia.
  - destruct H as (_ & _ & Hl & Hy). rewrite Hy. unfold _get_year_from_data.
    destruct Hl as [E|E]; rewrite E; reflexivity.
  - destruct H as [-> Hl]. rewrite Hl.
    destruct (calendar.isleap yr); reflexivity.
  - destruct H as [Hl ->]. rewrite Hl. reflexivity.
Qed.

End Constructor.

(** ** Grouping by week *)

Section GroupBy.

Import pd.

(** *** The group keys *)

Lemma insert_key_run (k : Z) (w : nat) (l : list Z) :
  HdRel Z.lt k l ->
  fold_right insert_key l (repeat k (S w)) = k :: l.
Proof.
  intros H. induction w as [|w IH].
  - cbn [repeat fold_right]. destruct l as [|h t]; [reflexivity|].
    apply HdRel_inv in H. apply Z.ltb_lt in H.
    cbn [insert_key]. now rewrite H.
  - change (repeat k (S (S w))) with (k :: repeat k (S w)).
    cbn [fold_right]. rewrite IH. cbn [insert_key].
    now rewrite Z.ltb_irrefl, Z.eqb_refl.
Qed.

Lemma group_keys_runs (blocks : list (Z * nat)) :
  Sorted Z.lt (map fst blocks) ->
  Forall (fun b => (1 <= snd b)%nat) blocks ->
  fold_right insert_key [] (runs blocks) = map fst blocks.
Proof.
  induction blocks as [|[k w] bs IH]; intros Hs Hw; [reflexivity|].
  cbn [map fst] in Hs. apply Sorted_inv in Hs. destruct Hs as [Hs Hd].
  inversion Hw as [|? ? Hk Hw']; subst. cbn [snd] in Hk.
  unfold runs in *. cbn [flat_map]. rewrite fold_right_app, IH by assumption.
  unfold run_of. cbn [fst snd map].
  destruct w as [|w]; [lia|]. now apply insert_key_run.
Qed.

Lemma in_runs (z : Z) (blocks : list (Z * nat)) :
  In z (runs blocks) -> exists b, In b blocks /\ fst b = z.
Proof.
  unfold runs. rewrite in_flat_map. intros (b & Hb & Hz).
  exists b. split; [assumption|].
  unfold run_of in Hz. apply repeat_spec in Hz. now symmetry.
Qed.

Lemma runs_in (b : Z * nat) (blocks : list (Z * nat)) :
  In b blocks -> (1 <= snd b)%nat -> In (fst b) (runs blocks).
Proof.
  intros Hb Hw. unfold runs. rewrite in_flat_map. exists b.
  split; [assumption|]. unfold run_of.
  destruct (snd b); [lia | now left].
Qed.

(** *** The rows of one group *)

Lemma filter_none {A} (f : A -> bool) (l : list A) :
  (forall a, In a l -> f a = false) -> filter f l = [].
Proof.
  induction l as [|a l IH]; intros H; [reflexivity|].
  cbn [filter]. rewrite (H a) by now left.
  apply IH. intros; apply H; now right.
Qed.

Lemma filter_every {A} (f : A -> bool) (l : list A) :
  (forall a, In a l -> f a = true) -> filter f l = l.
Proof.
  induction l as [|a l IH]; intros H; [reflexivity|].
  cbn [filter]. rewrite (H a) by now left.
  f_equal. apply IH. intros; apply H; now right.
Qed.

(** A frame whose [x] column starts with a run splits at the run's end. *)
Lemma split_run (df : DataFrame) (k : Z) (w : nat) (rest : list Z) :
  map x df = repeat k w ++ rest ->
  map x (firstn w df) = repeat k w /\ map x (skipn w df) = rest.
Proof.
  intros H. rewrite <- firstn_map, <- skipn_map, H. split.
  - rewrite firstn_app, repeat_length, Nat.sub_diag, firstn_O, app_nil_r.
    rewrite <- (repeat_length k w) at 1. apply firstn_all.
  - rewrite skipn_app, repeat_length, Nat.sub_diag.
    rewrite skipn_all2 by now rewrite repeat_length.
    reflexivity.
Qed.

Lemma group_skip_run (df : DataFrame) (k k' : Z) (w : nat) :
  map x (firstn w df) = repeat k' w -> k' <> k ->
  group df k = group (skipn w df) k.
Proof.
  intros H Hk. unfold group.
  rewrite <- (firstn_skipn w df) at 1. rewrite filter_app.
  rewrite filter_none; [reflexivity|].
  intros r Hr. apply Z.eqb_neq.
  apply (in_map x) in Hr. rewrite H in Hr.
  apply repeat_spec in Hr. congruence.
Qed.

Lemma group_of_run (df : DataFrame) (k : Z) (w : nat)
    (pre post : list (Z * nat)) :
  map x df = runs (pre ++ (k, w) :: post) ->
  (forall b, In b pre -> fst b <> k) ->
  (forall b, In b post -> fst b <> k) ->
  map day_values (group df k) =
  firstn w (skipn (list_sum (map snd pre)) (map day_values df)).
Proof.
  revert df. induction pre as [|[k' w'] pre IH]; intros df H Hpre Hpost.
  - cbn [app] in H. unfold runs in H. cbn [flat_map] in H.
    unfold run_of at 1 in H. cbn [fst snd] in H.
    apply split_run in H. destruct H as [H1 H2].
    cbn [map list_sum fold_right skipn]. rewrite firstn_map. f_equal.
    unfold group. rewrite <- (firstn_skipn w df) at 1. rewrite filter_app.
    rewrite filter_every, filter_none, app_nil_r; [reflexivity| |].
    + intros r Hr. apply Z.eqb_neq.
      apply (in_map x) in Hr. rewrite H2 in Hr.
      apply in_runs in Hr. destruct Hr as (b & Hb & <-). now apply Hpost.
    + intros r Hr. apply Z.eqb_eq.
      apply (in_map x) in Hr. rewrite H1 in Hr.
      now apply repeat_spec in Hr.
  - cbn [app] in H. unfold runs in H. cbn [flat_map] in H.
    unfold run_of at 1 in H. cbn [fst snd] in H.
    apply split_run in H. destruct H as [H1 H2].
    rewrite (group_skip_run df k k' w' H1)
      by (apply (Hpre (k', w')); now left).
    rewrite (IH (skipn w' df) H2 (fun b Hb => Hpre b (or_intror Hb)) Hpost).
    rewrite <- skipn_map, skipn_skipn.
    cbn [map list_sum fold_right snd]. do 2 f_equal. apply Nat.add_comm.
Qed.

(** *** All groups at once *)

Lemma StronglySorted_middle (pre post : list Z) (k : Z) :
  StronglySorted Z.lt (pre ++ k :: post) ->
  (forall a, In a pre -> a < k) /\ (forall a, In a post -> k < a).
Proof.
  induction pre as [|p pre IH]; cbn [app]; intros H.
  - apply StronglySorted_inv in H. destruct H as [_ H].
    rewrite Forall_forall in H. split; [intros a []| exact H].
  - apply StronglySorted_inv in H. destruct H as [H Hp].
    destruct (IH H) as [H1 H2]. split; [|exact H2].
    intros a [<-|Ha]; [|now apply H1].
    rewrite Forall_forall in Hp. apply Hp, in_or_app. right. now left.
Qed.

Lemma sums_of_runs (df : DataFrame) (post pre : list (Z * nat)) :
  map x df = runs (pre ++ post) ->
  StronglySorted Z.lt (map fst (pre ++ post)) ->
  map (fun k => (k, sum (map day_values (group df k)))) (map fst post) =
  map (fun kv => (fst kv, sum (snd kv)))
      (slices (list_sum (map snd pre)) post (map day_values df)).
Proof.
  revert pre. induction post as [|[k w] post IH]; intros pre H Hs;
    [reflexivity|].
  cbn [map fst slices snd]. f_equal.
  - f_equal. f_equal. apply (group_of_run df k w pre post H).
    + rewrite map_app in Hs. cbn [map fst] in Hs.
      apply StronglySorted_middle in Hs. destruct Hs as [Hs _].
      intros b Hb. apply (in_map fst) in Hb. apply Hs in Hb. lia.
    + rewrite map_app in Hs. cbn [map fst] in Hs.
      apply StronglySorted_middle in Hs. destruct Hs as [_ Hs].
      intros b Hb. apply (in_map fst) in Hb. apply Hs in Hb. lia.
  - replace (w + list_sum (map snd pre))%nat
      with (list_sum (map snd (pre ++ [(k, w)])))
      by (rewrite map_app, list_sum_app; simpl; lia).
    apply IH; rewrite <- app_assoc; assumption.
Qed.

(** [groupby('x').day_values.sum()] on a frame whose [x] column is a
    sequence of runs with increasing keys: one row per run, carrying the
    sum of the run's slice of the value column. *)
Lemma groupby_runs (df : DataFrame) (blocks : list (Z * nat)) :
  map x df = runs blocks ->
  Sorted Z.lt (map fst blocks) ->
  Forall (fun b => (1 <= snd b)%nat) blocks ->
  groupby_x_sum df =
  map (fun kv => (fst kv, sum (snd kv)))
      (slices 0 blocks (map day_values df)).
Proof.
  intros H Hs Hw. unfold groupby_x_sum, group_keys.
  rewrite H, group_keys_runs by assumption.
  apply (sums_of_runs df blocks []); [exact H|].
  apply Sorted_StronglySorted; [|exact Hs].
  intros a b c; apply Z.lt_trans.
Qed.

(** *** The columns of the frame *)

Lemma make_ok (xs ys : list Z) (vs : list float) :
  length xs = length vs -> length ys = length vs ->
  exists df, make xs ys vs = Ok df /\
             map x df = xs /\ map y df = ys /\ map day_values df = vs.
Proof.
  intros Hx Hy. unfold make.
  rewrite Hx, Hy, !Nat.eqb_refl. cbn [andb].
  eexists. split; [reflexivity|].
  rewrite !map_map. cbn [x y day_values].
  revert ys vs Hx Hy. induction xs as [|a xs IH]; intros [|b ys] [|v vs];
    try discriminate; intros Hx Hy; [repeat split|].
  cbn [combine map fst snd].
  injection Hx as Hx. injection Hy as Hy.
  destruct (IH ys vs Hx Hy) as (E1 & E2 & E3).
  now rewrite E1, E2, E3.
Qed.

End GroupBy.

(** ** The weekly load of a sheet *)

Section WeekLoad.

Variable self : YearSheet.

Local Abbreviation F := (Z.to_nat (_get_first_week_days self)).
Local Abbreviation L := (Z.to_nat (_get_last_week_days self)).

Lemma Sorted_arange (a b : Z) : Sorted Z.lt (np.arange a b).
Proof.
  unfold np.arange. generalize (Z.to_nat (b - a)) as n. generalize 0%nat as s.
  intros s n. revert s. induction n as [|n IH]; intros s; cbn [seq map].
  - constructor.
  - constructor; [apply IH|].
    destruct n; cbn [seq map]; constructor. lia.
Qed.

Lemma week_blocks_keys : map fst (week_blocks self) = np.arange 0 53.
Proof. reflexivity. Qed.

Lemma week_blocks_widths :
  Forall (fun b => (1 <= snd b)%nat) (week_blocks self).
Proof.
  pose proof (first_week_days_range self).
  pose proof (last_week_days_range self).
  unfold week_blocks. constructor; [cbn [snd]; lia|].
  apply Forall_app. split.
  - apply Forall_forall. intros b Hb. apply in_map_iff in Hb.
    destruct Hb as (n & <- & _). cbn [snd]. lia.
  - constructor; [cbn [snd]; lia | constructor].
Qed.

Lemma x_array_runs : x_array self = runs (week_blocks self).
Proof.
  rewrite x_array_app. unfold week_blocks, runs.
  cbn [flat_map]. unfold run_of at 1. cbn [fst snd]. f_equal.
  rewrite flat_map_app. cbn [flat_map]. unfold run_of at 2. cbn [fst snd].
  rewrite app_nil_r, flat_map_concat_map, map_map. reflexivity.
Qed.

(** The slices of the runs are the weeks of [week_values]. *)
Lemma slices_week_blocks :
  slices 0 (week_blocks self) (data self) =
  map (fun k => (k, week_values self k)) (np.arange 0 53).
Proof.
  unfold week_blocks, week_values, week_start, week_width.
  cbn [slices]. rewrite Nat.add_0_r.
  generalize F as f, L as l, (data self) as vs. intros f l vs.
  reflexivity.
Qed.

Lemma _yearsheet_data_as_df_ok :
  length (data self) = (F + 357 + L)%nat ->
  exists df, _yearsheet_data_as_df self = Ok df /\
             map pd.x df = x_array self /\
             map pd.y df = y_array self /\
             map pd.day_values df = data self.
Proof.
  intros H. unfold _yearsheet_data_as_df.
  rewrite (_x_ok self H), (_y_ok self H).
  apply make_ok.
  - now rewrite length_x_array.
  - now rewrite length_y_array.
Qed.

(** The weekly load: one row per week 0..52, in that order, each with the
    sum of that week's day values. *)
Lemma _week_load_data_ok :
  length (data self) = (F + 357 + L)%nat ->
  _week_load_data self =
  Ok (map (fun k => (k, pd.sum (week_values self k))) (np.arange 0 53)).
Proof.
  intros H. unfold _week_load_data.
  destruct (_yearsheet_data_as_df_ok H) as (df & -> & Hx & _ & Hv).
  f_equal.
  rewrite (groupby_runs df (week_blocks self)).
  - rewrite Hv, slices_week_blocks, map_map. reflexivity.
  - rewrite Hx. apply x_array_runs.
  - rewrite week_blocks_keys. apply Sorted_arange.
  - apply week_blocks_widths.
Qed.

End WeekLoad.

(** ** IEEE facts used by the synthetic series *)

Section SpecFloatFacts.

Lemma SFltb_key (f g : spec_float) :
  f <> S754_nan -> g <> S754_nan ->
  (SFltb f g = true <-> key_lt (SFkey f) (SFkey g)).
Proof.
  intros Hf Hg. unfold SFltb, key_lt.
  destruct f as [s|s| |s m e], g as [s'|s'| |s' m' e']; try congruence;
    try destruct s; try destruct s'; cbn [SFcompare SFkey fst snd];
    try (split; [discriminate | lia]); try (split; [lia | reflexivity]).
  all: destruct (Z.compare_spec e e');
    change (Pos.compare_cont Eq m m') with (Pos.compare m m');
    try destruct (Pos.compare_spec m m'); cbn [CompOpp];
    split; intros; try discriminate; try reflexivity; try lia.
Qed.

End SpecFloatFacts.

Section Rounding.

Variables prec emax : Z.

Lemma shr_1_nonneg (mrs : shr_record) :
  0 <= shr_m mrs -> 0 <= shr_m (shr_1 mrs).
Proof.
  destruct mrs as [m r s]. cbn [shr_m shr_1].
  destruct m as [|[p|p|]|p]; cbn [shr_m]; lia.
Qed.

Lemma iter_pos_shr_1_nonneg (p : positive) (mrs : shr_record) :
  0 <= shr_m mrs -> 0 <= shr_m (iter_pos shr_1 p mrs).
Proof.
  revert mrs. induction p as [p IH|p IH|]; intros mrs H; cbn [iter_pos].
  - apply IH, IH, shr_1_nonneg, H.
  - apply IH, IH, H.
  - apply shr_1_nonneg, H.
Qed.

Lemma shr_fexp_nonneg (m e : Z) (l : location) :
  0 <= m -> 0 <= shr_m (fst (shr_fexp prec emax m e l)).
Proof.
  intros H. unfold shr_fexp, shr.
  assert (0 <= shr_m (shr_record_of_loc m l)) as H0
    by (destruct l as [|[]]; exact H).
  destruct (fexp prec emax (Zdigits2 m + e) - e); cbn [fst]; try exact H0.
  apply iter_pos_shr_1_nonneg, H0.
Qed.

Lemma round_nearest_even_nonneg (m : Z) (l : location) :
  0 <= m -> 0 <= round_nearest_even m l.
Proof.
  intros H. destruct l as [|[]]; cbn [round_nearest_even];
    try destruct (Z.even m); lia.
Qed.

Lemma binary_round_aux_nonneg (mx ex : Z) (lx : location) :
  0 <= mx -> nonneg_sf (binary_round_aux prec emax false mx ex lx).
Proof.
  intros H. unfold binary_round_aux.
  pose proof (shr_fexp_nonneg mx ex lx H) as H1.
  destruct (shr_fexp prec emax mx ex lx) as [mrs' e']. cbn [fst] in H1.
  pose proof (shr_fexp_nonneg _ e' loc_Exact
                (round_nearest_even_nonneg _ (loc_of_shr_record mrs') H1)) as H2.
  destruct (shr_fexp prec emax _ e' loc_Exact) as [mrs'' e''].
  cbn [fst] in H2.
  destruct (shr_m mrs'') as [|p|p]; [exact I | | lia].
  destruct (e'' <=? emax - prec); exact I.
Qed.

Lemma binary_normalize_nonneg (m e : Z) :
  0 <= m -> nonneg_sf (binary_normalize prec emax m e false).
Proof.
  intros H. destruct m as [|p|p]; [exact I | | lia].
  cbn [binary_normalize]. unfold binary_round.
  destruct (shl_align p e _) as [mz ez].
  apply binary_round_aux_nonneg. lia.
Qed.

End Rounding.

Section Alignment.

Lemma digits2_bounds (m : positive) :
  2 ^ (Zpos (digits2_pos m) - 1) <= Zpos m < 2 ^ Zpos (digits2_pos m).
Proof.
  induction m as [m IH|m IH|]; cbn [digits2_pos].
  - rewrite Pos2Z.inj_succ.
    replace (Z.succ (Zpos (digits2_pos m)) - 1)
      with (Z.succ (Zpos (digits2_pos m) - 1)) by lia.
    rewrite !Z.pow_succ_r by lia. lia.
  - rewrite Pos2Z.inj_succ.
    replace (Z.succ (Zpos (digits2_pos m)) - 1)
      with (Z.succ (Zpos (digits2_pos m) - 1)) by lia.
    rewrite !Z.pow_succ_r by lia. lia.
  - cbn. lia.
Qed.

(** A canonical binary64 mantissa has at most 53 bits, exactly 53 above
    the least exponent. *)
Lemma bounded_inv (m : positive) (e : Z) :
  bounded prec emax m e = true ->
  -1074 <= e /\ Zpos m < 2 ^ 53 /\ (-1074 < e -> 2 ^ 52 <= Zpos m).
Proof.
  unfold bounded, canonical_mantissa, fexp, SpecFloat.emin, prec, emax.
  intros H. apply andb_true_iff in H. destruct H as [H _].
  apply Z.eqb_eq in H.
  pose proof (digits2_bounds m) as [Hlo Hhi].
  set (d := Zpos (digits2_pos m)) in *.
  assert (0 < d) by (subst d; lia).
  split; [lia|]. split.
  - apply Z.lt_le_trans with (1 := Hhi).
    apply Z.pow_le_mono_r; lia.
  - intros He. replace d with 53 in Hlo by lia. exact Hlo.
Qed.

Lemma shl_align_fst_ge (m : positive) (e e' : Z) :
  e <= e' -> fst (shl_align m e e') = m.
Proof.
  intros H. unfold shl_align.
  destruct (e' - e) eqn:E; try reflexivity. lia.
Qed.

Lemma shl_align_fst_lt (m : positive) (e e' : Z) :
  e' < e -> Zpos (fst (shl_align m e e')) = 2 ^ (e - e') * Zpos m.
Proof.
  intros H. unfold shl_align.
  destruct (e' - e) as [|d|d] eqn:E; try lia.
  cbn [fst]. replace (e - e') with (Zpos d) by lia.
  apply (shift_pos_correct d m).
Qed.

(** Aligned to the smaller exponent, the mantissa of the smaller of two
    canonical floats of one sign is the smaller one. *)
Lemma align_le (m1 m2 : positive) (e1 e2 : Z) :
  bounded prec emax m1 e1 = true ->
  bounded prec emax m2 e2 = true ->
  e1 < e2 \/ (e1 = e2 /\ (m1 <= m2)%positive) ->
  Zpos (fst (shl_align m1 e1 (Z.min e1 e2))) <=
  Zpos (fst (shl_align m2 e2 (Z.min e1 e2))).
Proof.
  intros B1 B2 [H|[-> H]].
  - rewrite Z.min_l by lia.
    rewrite shl_align_fst_ge, shl_align_fst_lt by lia.
    apply bounded_inv in B1, B2.
    destruct B1 as (L1 & U1 & _), B2 as (_ & _ & N2).
    specialize (N2 ltac:(lia)).
    assert (2 ^ 1 <= 2 ^ (e2 - e1)) as P
      by (apply Z.pow_le_mono_r; lia).
    change (2 ^ 1) with 2 in P.
    change (2 ^ 53) with (2 * 2 ^ 52) in U1.
    nia.
  - rewrite Z.min_id, !shl_align_fst_ge by lia. lia.
Qed.

End Alignment.

Section Subtraction.

Lemma SFsub_diag (f : spec_float) :
  finite_sf f -> SF64sub f f = S754_zero false.
Proof.
  destruct f as [s|s| |s m e]; cbn [finite_sf]; try contradiction; intros _.
  - destruct s; reflexivity.
  - unfold SF64sub, SFsub. rewrite Z.sub_diag. reflexivity.
Qed.

Lemma SFsub_nonneg (fx fm : spec_float) :
  finite_sf fx -> finite_sf fm -> SFltb fx fm = false ->
  nonneg_sf (SF64sub fx fm).
Proof.
  destruct fx as [sx|sx| |sx mx ex], fm as [sm|sm| |sm mm em];
    cbn [finite_sf]; try contradiction; intros Bx Bm.
  - intros _. destruct sx, sm; exact I.
  - destruct sm; [intros _; exact I | discriminate].
  - destruct sx; [discriminate | intros _; exact I].
  - unfold SFltb. cbn [SFcompare]. intros Hc.
    unfold SF64sub, SFsub. apply binary_normalize_nonneg.
    change (Pos.compare_cont Eq mx mm) with (Pos.compare mx mm) in Hc.
    destruct sx, sm; cbn [cond_Zopp]; try discriminate; try lia.
    + (* both negative: [fm] has the larger magnitude *)
      enough (Zpos (fst (shl_align mx ex (Z.min ex em))) <=
              Zpos (fst (shl_align mm em (Z.min ex em)))) by lia.
      apply align_le; try assumption.
      destruct (Z.compare_spec ex em); try discriminate; [right | left; lia].
      split; [assumption|].
      destruct (Pos.compare_spec mx mm); try discriminate; lia.
    + (* both positive: [fx] has the larger magnitude *)
      enough (Zpos (fst (shl_align mm em (Z.min em ex))) <=
              Zpos (fst (shl_align mx ex (Z.min em ex))))
        by (rewrite (Z.min_comm ex em); lia).
      apply align_le; try assumption.
      destruct (Z.compare_spec ex em); try discriminate; [right | left; lia].
      split; [congruence|].
      destruct (Pos.compare_spec mx mm); try discriminate; lia.
Qed.

Lemma nonneg_sf_leb (f : spec_float) :
  nonneg_sf f -> SFleb (S754_zero false) f = true.
Proof. destruct f as [s|[]| |[] m e]; cbn; tauto. Qed.

Lemma nonneg_sf_not_nan (f : spec_float) : nonneg_sf f -> f <> S754_nan.
Proof. destruct f; cbn; [discriminate.. | tauto | discriminate]. Qed.

Lemma finite_sf_not_nan (f : spec_float) : finite_sf f -> f <> S754_nan.
Proof. destruct f; cbn; [discriminate.. | tauto | discriminate]. Qed.

End Subtraction.

Section PrimFloatFacts.

Local Open Scope float_scope.

Lemma Prim2SF_zero : Prim2SF 0 = S754_zero false.
Proof. reflexivity. Qed.

Lemma Prim2SF_infinity : Prim2SF infinity = S754_infinity false.
Proof. reflexivity. Qed.

Lemma is_finite_sf (x : float) :
  is_finite x = true -> finite_sf (Prim2SF x).
Proof.
  unfold is_finite, is_nan, is_infinity.
  rewrite negb_true_iff, orb_false_iff, negb_false_iff.
  rewrite !eqb_spec, abs_spec, Prim2SF_infinity.
  pose proof (Prim2SF_valid x) as V.
  destruct (Prim2SF x) as [s|s| |s m e]; cbn; intros [H1 H2];
    try discriminate; auto.
Qed.

Lemma sub_diag (x : float) : is_finite x = true -> x - x = 0.
Proof.
  intros H. apply Prim2SF_inj.
  rewrite sub_spec, Prim2SF_zero. apply SFsub_diag, is_finite_sf, H.
Qed.

Lemma sub_nonneg (x m : float) :
  is_finite x = true -> is_finite m = true -> (x <? m) = false ->
  nonneg_sf (Prim2SF (x - m)).
Proof.
  intros Hx Hm H. rewrite sub_spec. rewrite ltb_spec in H.
  apply SFsub_nonneg; auto using is_finite_sf.
Qed.

End PrimFloatFacts.

(** ** The minimum of an array *)

Section Minimum.

Local Open Scope float_scope.

Lemma key_lt_irrefl (a : Z * Z * Z) : ~ key_lt a a.
Proof. unfold key_lt. lia. Qed.

Lemma key_lt_trans (a b c : Z * Z * Z) :
  key_lt a b -> key_lt b c -> key_lt a c.
Proof. unfold key_lt. lia. Qed.

Lemma key_lt_le_trans (a b c : Z * Z * Z) :
  key_lt a b -> ~ key_lt c b -> key_lt a c.
Proof. unfold key_lt. lia. Qed.

Lemma ltb_key (x y : float) :
  Prim2SF x <> S754_nan -> Prim2SF y <> S754_nan ->
  ((x <? y) = true <-> key_lt (SFkey (Prim2SF x)) (SFkey (Prim2SF y))).
Proof. intros Hx Hy. rewrite ltb_spec. now apply SFltb_key. Qed.

Lemma ltb_false_key (x y : float) :
  Prim2SF x <> S754_nan -> Prim2SF y <> S754_nan ->
  ((x <? y) = false <-> ~ key_lt (SFkey (Prim2SF x)) (SFkey (Prim2SF y))).
Proof.
  intros Hx Hy. rewrite <- (ltb_key x y Hx Hy).
  destruct (x <? y); split; congruence.
Qed.

(** The running minimum of [ndarray.min]: it ends on an element that no
    element is below. *)
Lemma fold_min_spec (t : list float) (acc : float) :
  Prim2SF acc <> S754_nan ->
  Forall (fun v => Prim2SF v <> S754_nan) t ->
  let m := fold_left (fun acc v => if v <? acc then v else acc) t acc in
  (m = acc \/ In m t) /\
  (acc <? m) = false /\
  Forall (fun v => (v <? m) = false) t.
Proof.
  revert acc. induction t as [|v t IH]; intros acc Hacc Ht; cbn zeta.
  - cbn [fold_left]. split; [now left|]. split; [|constructor].
    apply ltb_false_key; auto using key_lt_irrefl.
  - inversion Ht as [|? ? Hv Ht']; subst. cbn [fold_left].
    set (acc' := if v <? acc then v else acc).
    assert (Prim2SF acc' <> S754_nan) as Hacc'
      by (subst acc'; destruct (v <? acc); assumption).
    destruct (IH acc' Hacc' Ht') as (Hin & Hlt & Hall).
    set (m := fold_left _ t acc') in *.
    assert (Prim2SF m <> S754_nan) as Hm.
    { destruct Hin as [->|Hin]; [assumption|].
      rewrite Forall_forall in Ht'. now apply Ht'. }
    apply ltb_false_key in Hlt; [|assumption..].
    split; [|split; [|constructor; [|exact Hall]]].
    + destruct Hin as [Hin|Hin]; [|right; now right].
      subst acc'. destruct (v <? acc); rewrite Hin; auto.
      right. now left.
    + apply ltb_false_key; [assumption..|]. subst acc'.
      destruct (v <? acc) eqn:C; [|exact Hlt].
      apply ltb_key in C; [|assumption..].
      intros A. apply Hlt. eapply key_lt_trans; eassumption.
    + apply ltb_false_key; [assumption..|]. subst acc'.
      destruct (v <? acc) eqn:C; [exact Hlt|].
      apply ltb_false_key in C; [|assumption..].
      intros A. apply C. eapply key_lt_le_trans; eassumption.
Qed.

Lemma min_spec (a : list float) (m : float) :
  Forall (fun v => Prim2SF v <> S754_nan) a ->
  np.min a = Ok m ->
  In m a /\ Forall (fun v => (v <? m) = false) a.
Proof.
  destruct a as [|h t]; [discriminate|].
  intros Ha [= <-]. inversion Ha as [|? ? Hh Ht]; subst.
  destruct (fold_min_spec t h Hh Ht) as (Hin & Hlt & Hall).
  split; [|constructor; assumption].
  destruct Hin as [->|Hin]; [now left | now right].
Qed.

(** The shifted series: every entry compares [>= 0], and its minimum
    compares equal to [0]. *)
Lemma shifted_series (a : list float) (m : float) :
  Forall (fun v => is_finite v = true) a ->
  np.min a = Ok m ->
  Forall (fun v => nonneg_sf (Prim2SF v)) (np.sub_scalar a m) /\
  In 0 (np.sub_scalar a m).
Proof.
  intros Ha Hm.
  assert (Forall (fun v => Prim2SF v <> S754_nan) a) as Hn.
  { eapply Forall_impl; [|exact Ha].
    intros v Hv. now apply finite_sf_not_nan, is_finite_sf. }
  destruct (min_spec a m Hn Hm) as [Hin Hall].
  rewrite Forall_forall in Ha, Hall.
  split.
  - unfold np.sub_scalar. apply Forall_forall. intros z Hz.
    apply in_map_iff in Hz. destruct Hz as (v & <- & Hv).
    apply sub_nonneg; auto.
  - unfold np.sub_scalar. apply in_map_iff. exists m.
    split; [|assumption]. apply sub_diag; auto.
Qed.

Lemma nonneg_min_zero (a : list float) (m : float) :
  Forall (fun v => nonneg_sf (Prim2SF v)) a -> In 0 a ->
  np.min a = Ok m -> (m =? 0) = true.
Proof.
  intros Ha H0 Hm.
  assert (Forall (fun v => Prim2SF v <> S754_nan) a) as Hn.
  { eapply Forall_impl; [|exact Ha].
    intros v Hv. now apply nonneg_sf_not_nan. }
  destruct (min_spec a m Hn Hm) as [Hin Hall].
  rewrite Forall_forall in Ha, Hall.
  specialize (Ha m Hin). specialize (Hall 0 H0).
  rewrite ltb_spec in Hall. rewrite eqb_spec.
  change (Prim2SF 0) with (S754_zero false) in *.
  destruct (Prim2SF m) as [s|[]| |[] mm e]; cbn in Ha, Hall |- *;
    try contradiction; try discriminate; reflexivity.
Qed.

End Minimum.

(** ** Sheets whose series fits the grid *)

Section Fit.

Variable self : YearSheet.

Local Abbreviation F := (Z.to_nat (_get_first_week_days self)).
Local Abbreviation L := (Z.to_nat (_get_last_week_days self)).

Lemma fits_nat :
  Z.of_nat (length (data self)) =
  _get_first_week_days self + 51 * 7 + _get_last_week_days self ->
  length (data self) = (F + 357 + L)%nat.
Proof. intros H. rewrite <- grid_size in H. lia. Qed.

(** Outside the leap years that begin on a Sunday, a series with one
    value per day of the year fits the grid. *)
Lemma year_fits :
  sunday_leap (year self) = false ->
  Z.of_nat (length (data self)) = days_in_year (year self) ->
  length (data self) = (F + 357 + L)%nat.
Proof.
  intros Hs Hd. apply fits_nat.
  rewrite week_days_total, Hs. exact Hd.
Qed.

Lemma in_x_array (k : Z) : In k (x_array self) <-> In k (np.arange 0 53).
Proof.
  rewrite x_array_runs, <- (week_blocks_keys self). split.
  - intros H. apply in_runs in H. destruct H as (b & Hb & <-).
    now apply in_map.
  - intros H. apply in_map_iff in H. destruct H as (b & <- & Hb).
    apply runs_in; [assumption|].
    pose proof (week_blocks_widths self) as W.
    rewrite Forall_forall in W. now apply W.
Qed.

End Fit.

(** ** Constructed sheets and the grid *)

Section ConstructedGrid.

Variable fs : Files.

(** On a constructed sheet [_x] and [_y] return arrays as long as the
    series, except for a leap year that begins on a Sunday, where both stop
    at their assertion. *)
Lemma constructed_grid source y bare s self s' :
  __init__ fs source y bare s = Ok (self, s') ->
  if sunday_leap (year self)
  then _x self = Raise AssertionError /\ _y self = Raise AssertionError
  else _x self = Ok (x_array self) /\ _y self = Ok (y_array self) /\
       length (x_array self) = length (data self) /\
       length (y_array self) = length (data self).
Proof.
  intros H. apply constructed_size in H.
  pose proof (week_days_total self) as T.
  pose proof (grid_size self) as G.
  destruct (sunday_leap (year self)) eqn:Sl.
  - assert (length (data self)
            <> (Z.to_nat (_get_first_week_days self) + 357
                + Z.to_nat (_get_last_week_days self))%nat) as N
      by (unfold days_in_year in H; destruct (calendar.isleap (year self)); lia).
    split; [now apply _x_raises | now apply _y_raises].
  - assert (length (data self)
            = (Z.to_nat (_get_first_week_days self) + 357
               + Z.to_nat (_get_last_week_days self))%nat) as E by lia.
    rewrite length_x_array, length_y_array.
    repeat split; auto using _x_ok, _y_ok.
Qed.

(** The sheet of 2012 built without a source. *)
Lemma construction_2012 bare s :
  exists self s',
    __init__ fs None (Some 2012) bare s = Ok (self, s') /\
    length (data self) = 366%nat /\
    _x self = Raise AssertionError.
Proof.
  destruct (_generate_random_data_ok 365 s) as (m & _ & G).
  eexists _, _. split.
  - unfold __init__. cbv zeta.
    change (given_source None) with (@None string).
    change (given_year (Some 2012)) with (Some 2012).
    cbv iota. unfold bind at 1.
    change (calendar.isleap 2012) with true. cbv iota.
    rewrite G. reflexivity.
  - cbn [data]. split.
    + now rewrite length_sub_scalar, length_map, length_seq.
    + apply _x_raises. cbn [data].
      rewrite length_sub_scalar, length_map, length_seq. discriminate.
Qed.

End ConstructedGrid.

(** * The claims *)

(** C1.  The days of the partial first week plus 51 * 7 plus the days of
    the partial last week are the days of the year, 365 or 366, for every
    year except the leap years that begin on a Sunday, where they are 359;
    2012 is such a year: [_get_first_week_days] and [_get_last_week_days]
    are both 1 there, and the sum is 359, not 366. *)
Theorem week_days_sum (self : YearSheet) :
  _get_first_week_days self + 51 * 7 + _get_last_week_days self =
  (if sunday_leap (year self) then 359 else days_in_year (year self)) /\
  calendar.isleap 2012 = true /\
  sunday_leap 2012 = true /\
  _get_first_week_days (sheet_of 2012 (data self)) = 1 /\
  _get_last_week_days (sheet_of 2012 (data self)) = 1 /\
  _get_first_week_days (sheet_of 2012 (data self)) + 51 * 7
  + _get_last_week_days (sheet_of 2012 (data self)) = 359.
Proof.
  split; [apply week_days_total|].
  repeat split.
Qed.

(** C2.  Constructing a sheet for the year 2012 without a source succeeds
    with a series of 366 values, and on that sheet both [_x] and [_y] stop
    at their length assertion. *)
Theorem assertion_fires_2012 (fs : Files) (bare : bool) (s : RandomState) :
  exists self s',
    __init__ fs None (Some 2012) bare s = Ok (self, s') /\
    length (data self) = 366%nat /\
    _x self = Raise AssertionError /\
    _y self = Raise AssertionError.
Proof.
  destruct (_generate_random_data_ok 365 s) as (m & _ & G).
  eexists _, _. split.
  - unfold __init__. cbv zeta.
    change (given_source None) with (@None string).
    change (given_year (Some 2012)) with (Some 2012).
    cbv iota. unfold bind at 1.
    change (calendar.isleap 2012) with true. cbv iota.
    rewrite G. reflexivity.
  - cbn [data]. split.
    + now rewrite length_sub_scalar, length_map, length_seq.
    + split; [apply _x_raises | apply _y_raises]; cbn [data];
        rewrite length_sub_scalar, length_map, length_seq;
        discriminate.
Qed.

(** C3, as stated, fails: for 2021 the ISO weekday of January 1 is 5, and
    [_get_first_week_days] is 3, not 7 - 5. *)
Lemma first_week_days_not_7_minus_iso :
  _get_first_week_days (sheet_of 2021 (ones 365))
  <> 7 - calendar.isoweekday 2021 1 1.
Proof. vm_compute. discriminate. Qed.

(** C3, amended.  [_get_first_week_days] is 7 minus the weekday of January 1
    counted from 0 (Monday) to 6 (Sunday), that is 8 minus its ISO weekday;
    it is 7 exactly for a Monday, 1 exactly for a Sunday, and 3 for 2021,
    whose January 1 is a Friday. *)
Theorem first_week_days_spec (self : YearSheet) :
  _get_first_week_days self = 7 - calendar.weekday (year self) 1 1 /\
  _get_first_week_days self = 8 - calendar.isoweekday (year self) 1 1 /\
  1 <= calendar.isoweekday (year self) 1 1 <= 7 /\
  (calendar.isoweekday (year self) 1 1 = 1 <-> _get_first_week_days self = 7) /\
  (calendar.isoweekday (year self) 1 1 = 7 <-> _get_first_week_days self = 1) /\
  calendar.isoweekday 2021 1 1 = 5 /\
  _get_first_week_days (sheet_of 2021 (data self)) = 3.
Proof.
  unfold _get_first_week_days.
  rewrite isoweekday_weekday.
  pose proof (weekday_range (year self) 1 1).
  repeat split; try reflexivity; lia.
Qed.

(** C4.  Take a series with one value per day of the year of the sheet, the
    series [match_data_and_year] accepts for it.  Unless the year is a leap
    year that begins on a Sunday, [_x] and [_y] return arrays of that length
    in which, in day order: the first [firstWeekDays] days have week index 0
    and weekday index 1, 2, ...; the [k]-th following group of 7 days, [k]
    from 1 to 51, has week index [k] and weekday index 1..7; the last
    [lastWeekDays] days have week index 52 and weekday index 1, 2, ....
    For a leap year that begins on a Sunday, as 2012 is, both calls stop at
    their assertion and no array is returned. *)
Theorem grid_layout_by_year (self : YearSheet) :
  Z.of_nat (length (data self)) = days_in_year (year self) ->
  match_data_and_year self = Ok tt /\
  sunday_leap 2012 = true /\
  if sunday_leap (year self)
  then _x self = Raise AssertionError /\ _y self = Raise AssertionError
  else
    exists xs ys,
      _x self = Ok xs /\ _y self = Ok ys /\
      length xs = length (data self) /\ length ys = length (data self) /\
      (forall i, (i < Z.to_nat (_get_first_week_days self))%nat ->
         nth_error xs i = Some 0 /\
         nth_error ys i = Some (Z.of_nat i + 1)) /\
      (forall k j, (1 <= k <= 51)%nat -> (j < 7)%nat ->
         let i :=
           (Z.to_nat (_get_first_week_days self) + 7 * (k - 1) + j)%nat in
         nth_error xs i = Some (Z.of_nat k) /\
         nth_error ys i = Some (Z.of_nat j + 1)) /\
      (forall j, (j < Z.to_nat (_get_last_week_days self))%nat ->
         let i := (Z.to_nat (_get_first_week_days self) + 357 + j)%nat in
         nth_error xs i = Some 52 /\
         nth_error ys i = Some (Z.of_nat j + 1)).
Proof.
  intros H. split; [|split; [reflexivity|]].
  - apply match_data_and_year_ok. unfold days_in_year in H.
    destruct (calendar.isleap (year self));
      split; intros [A B]; first [discriminate B | lia].
  - pose proof (week_days_total self) as T.
    pose proof (grid_size self) as G.
    destruct (sunday_leap (year self)) eqn:Sl.
    + assert (length (data self)
              <> (Z.to_nat (_get_first_week_days self) + 357
                  + Z.to_nat (_get_last_week_days self))%nat) as N
        by (unfold days_in_year in H;
            destruct (calendar.isleap (year self)); lia).
      split; [now apply _x_raises | now apply _y_raises].
    + pose proof (year_fits self Sl H) as Hf.
      exists (x_array self), (y_array self).
      split; [now apply _x_ok|]. split; [now apply _y_ok|].
      split; [now rewrite length_x_array|].
      split; [now rewrite length_y_array|].
      split; [|split].
      * intros i Hi. split; [now apply x_first | now apply y_first].
      * intros k j Hk Hj. split; [now apply x_inner | now apply y_inner].
      * intros j Hj. split; [now apply x_last | now apply y_last].
Qed.

Lemma grid_layout_by_year_2012 :
  match_data_and_year (sheet_of 2012 (ones 366)) = Ok tt /\
  sunday_leap 2012 = true /\
  _x (sheet_of 2012 (ones 366)) = Raise AssertionError /\
  _y (sheet_of 2012 (ones 366)) = Raise AssertionError.
Proof.
  apply (grid_layout_by_year (sheet_of 2012 (ones 366))). reflexivity.
Defined.

(** C5.  On the sheet constructed for the year 2012 without a source, a
    leap year that begins on a Sunday, [_yearsheet_data_as_df] and
    [_week_load_data] stop at the assertion of [_x]: no aggregate is
    produced.  For 2021 and a series of 365 values 1.0 the aggregate is 3.0
    for week 0, 7.0 for each of the weeks 1 to 51 and 5.0 for week 52, the
    rows in increasing week order. *)
Theorem week_load_data_2012_raises (fs : Files) (bare : bool)
    (s : RandomState) :
  (exists self s',
     __init__ fs None (Some 2012) bare s = Ok (self, s') /\
     length (data self) = 366%nat /\
     _yearsheet_data_as_df self = Raise AssertionError /\
     _week_load_data self = Raise AssertionError) /\
  _week_load_data (sheet_of 2021 (ones 365)) =
  Ok ((0, 3%float)
      :: map (fun k => (k, 7%float)) (np.arange 1 52)
      ++ [(52, 5%float)]).
Proof.
  split; [|vm_compute; reflexivity].
  destruct (construction_2012 fs bare s) as (self & s' & Hi & Hl & Hx).
  exists self, s'. split; [exact Hi|]. split; [exact Hl|].
  unfold _week_load_data, _yearsheet_data_as_df. rewrite Hx.
  split; reflexivity.
Qed.

(** C6.  With both a source and a year given, the constructor raises
    [ValueError] with the text "Data size and year mismatch." exactly when
    the file loads with 366 values and the year is not leap, or with 365
    values and the year is leap. *)
Theorem year_mismatch_error (fs : Files) (src : string) (yr : Z)
    (bare : bool) (s : RandomState) :
  src <> EmptyString -> yr <> 0 ->
  (__init__ fs (Some src) (Some yr) bare s = Raise (ValueError mismatch_msg)
   <->
   exists d, fs src = Some d /\
     ((length d = 366%nat /\ calendar.isleap yr = false) \/
      (length d = 365%nat /\ calendar.isleap yr = true))).
Proof.
  intros Hsrc Hyr.
  assert (given_source (Some src) = Some src) as Gs.
  { unfold given_source, truthy_source.
    destruct (String.eqb_spec src EmptyString); [contradiction | reflexivity]. }
  assert (given_year (Some yr) = Some yr) as Gy.
  { unfold given_year, truthy_year.
    destruct (Z.eqb_spec yr 0); [contradiction | reflexivity]. }
  unfold __init__. cbv zeta. rewrite Gs, Gy.
  unfold bind, lift, ret.
  destruct (_parse_file fs src) as [d|e] eqn:P.
  - apply _parse_file_ok in P. destruct P as [Pf Pl]. rewrite Pf.
    set (self := {| data := d; year := yr;
                    week_load := if bare then false else true |}).
    destruct (match_data_and_year self) as [[]|e] eqn:Mt.
    + apply match_data_and_year_ok in Mt. cbn [data year self] in Mt.
      split; [discriminate|].
      intros (d' & [= <-] & Hd).
      destruct (calendar.isleap yr); intuition congruence.
    + pose proof (match_data_and_year_raises self e Mt) as ->.
      split; [|reflexivity]. intros _. exists d. split; [reflexivity|].
      assert (match_data_and_year self <> Ok tt) as N by congruence.
      rewrite match_data_and_year_ok in N. cbn [data year self] in N.
      destruct (calendar.isleap yr); destruct Pl as [E|E];
        first [ left; split; [assumption | reflexivity]
              | right; split; [assumption | reflexivity]
              | exfalso; apply N; split; intros [A B];
                first [discriminate B | lia] ].
  - split.
    + intros [= ->]. apply _parse_file_raises in P.
      destruct P as [P|P]; discriminate P.
    + intros (d & Hd & Hl). exfalso.
      unfold _parse_file in P. rewrite Hd in P.
      destruct (negb _) eqn:T; [|discriminate].
      assert (~ (length d = 365%nat \/ length d = 366%nat)) as N
        by (rewrite <- size_test, T; discriminate).
      tauto.
Qed.

Lemma year_mismatch_366_in_2019 :
  __init__ (one_file "data366.txt" (ones 366)) (Some "data366.txt"%string)
    (Some 2019) false sample_state
  = Raise (ValueError mismatch_msg).
Proof.
  apply (year_mismatch_error (one_file "data366.txt" (ones 366))
           "data366.txt" 2019 false sample_state);
    [discriminate | discriminate |].
  exists (ones 366). split; [reflexivity|]. left. split; reflexivity.
Defined.

(** C7.  When the file parses to an array, [_parse_file] raises
    [ValueError] with the text "The file contains less than 365 or more than
    366 entries." exactly when the array has neither 365 nor 366 entries, and
    then the constructor raises that error, whatever the year: no sheet is
    returned. *)
Theorem size_validation_error (fs : Files) (src : string) (d : list float) :
  fs src = Some d ->
  (_parse_file fs src = Raise (ValueError size_msg) <->
   length d <> 365%nat /\ length d <> 366%nat) /\
  (length d <> 365%nat -> length d <> 366%nat -> src <> EmptyString ->
   forall y bare s,
     __init__ fs (Some src) y bare s = Raise (ValueError size_msg)).
Proof.
  intros Hd. split.
  - rewrite _parse_file_size_error. split.
    + intros (d' & Hd' & H). congruence.
    + intros H. now exists d.
  - intros H1 H2 Hsrc y bare s.
    assert (_parse_file fs src = Raise (ValueError size_msg)) as P
      by (apply _parse_file_size_error; now exists d).
    assert (given_source (Some src) = Some src) as Gs.
    { unfold given_source, truthy_source.
      destruct (String.eqb_spec src EmptyString); [contradiction | reflexivity]. }
    unfold __init__. cbv zeta. rewrite Gs.
    destruct (given_year y); unfold bind, lift; rewrite P; reflexivity.
Qed.

Lemma size_validation_364 :
  (_parse_file (one_file "short.txt" (ones 364)) "short.txt"
   = Raise (ValueError size_msg) <->
   length (ones 364) <> 365%nat /\ length (ones 364) <> 366%nat) /\
  (length (ones 364) <> 365%nat -> length (ones 364) <> 366%nat ->
   "short.txt"%string <> EmptyString ->
   forall y bare s,
     __init__ (one_file "short.txt" (ones 364)) (Some "short.txt"%string)
       y bare s
     = Raise (ValueError size_msg)).
Proof.
  apply (size_validation_error (one_file "short.txt" (ones 364))
           "short.txt" (ones 364)).
  reflexivity.
Defined.

(** C8.  After a successful construction, through any of the four branches,
    the series has 366 values exactly when the year of the sheet is leap,
    and 365 values exactly when it is not. *)
Theorem size_year_consistency (fs : Files) (source : option string)
    (y : option Z) (bare : bool) (s s' : RandomState) (self : YearSheet) :
  __init__ fs source y bare s = Ok (self, s') ->
  (length (data self) = 366%nat <-> calendar.isleap (year self) = true) /\
  (length (data self) = 365%nat <-> calendar.isleap (year self) = false).
Proof.
  intros H. apply constructed_size in H. unfold days_in_year in H.
  destruct (calendar.isleap (year self)); split; split; intros E;
    first [reflexivity | discriminate | lia].
Qed.

Lemma size_year_consistency_2020 :
  exists self s',
    __init__ (one_file "data366.txt" (ones 366)) None (Some 2020) false
      sample_state = Ok (self, s') /\
    (length (data self) = 366%nat <-> calendar.isleap (year self) = true) /\
    (length (data self) = 365%nat <-> calendar.isleap (year self) = false).
Proof.
  eexists _, _. split.
  - vm_compute. reflexivity.
  - eapply (size_year_consistency (one_file "data366.txt" (ones 366)) None
              (Some 2020) false sample_state).
    vm_compute. reflexivity.
Defined.

(** C9.  For every positive length and every generator whose samples are
    finite, [_generate_random_data] returns a series of that length whose
    minimum compares equal to 0 and all of whose values compare [>= 0]. *)
Theorem synthetic_series_min_zero (days : nat) (s : RandomState) :
  (0 < days)%nat ->
  forallb is_finite (map s (seq 0 days)) = true ->
  exists series s' m,
    _generate_random_data days s = Ok (series, s') /\
    length series = days /\
    np.min series = Ok m /\
    (m =? 0)%float = true /\
    Forall (fun v => (0 <=? v)%float = true) series.
Proof.
  intros Hd Hf. destruct days as [|n]; [lia|].
  destruct (_generate_random_data_ok n s) as (m0 & Hm0 & G).
  rewrite forallb_forall in Hf. rewrite <- Forall_forall in Hf.
  destruct (shifted_series _ m0 Hf Hm0) as [Hnn H0].
  set (series := np.sub_scalar (map s (seq 0 (S n))) m0) in *.
  destruct series as [|h t] eqn:E; [destruct H0|].
  destruct (min_nonempty h t) as [m Hm].
  exists (h :: t), (fun i => s (i + S n)%nat), m.
  split; [exact G|].
  split.
  { rewrite <- E. subst series.
    now rewrite length_sub_scalar, length_map, length_seq. }
  split; [exact Hm|].
  split.
  - exact (nonneg_min_zero (h :: t) m Hnn H0 Hm).
  - eapply Forall_impl; [|exact Hnn].
    intros v Hv. rewrite leb_spec. now apply nonneg_sf_leb.
Qed.

Lemma synthetic_series_365 :
  exists series s' m,
    _generate_random_data 365 sample_state = Ok (series, s') /\
    length series = 365%nat /\
    np.min series = Ok m /\
    (m =? 0)%float = true /\
    Forall (fun v => (0 <=? v)%float = true) series.
Proof.
  apply (synthetic_series_min_zero 365 sample_state).
  - lia.
  - vm_compute. reflexivity.
Defined.

(** C10.  For a file of exactly 365 values, the constructor called with
    that file, and with no year or with a year that is not leap, returns a
    sheet whose series is those values in order, and the first entry of the
    array of [_x] is 0. *)
Theorem file_round_trip (fs : Files) (src : string) (d : list float)
    (y : option Z) (bare : bool) (s : RandomState) :
  fs src = Some d -> length d = 365%nat -> src <> EmptyString ->
  match given_year y with
  | Some yr => calendar.isleap yr = false
  | None => True
  end ->
  exists self xs,
    __init__ fs (Some src) y bare s = Ok (self, s) /\
    data self = d /\
    _x self = Ok xs /\
    nth_error xs 0 = Some 0.
Proof.
  intros Hd Hl Hsrc Hy.
  assert (_parse_file fs src = Ok d) as P
    by (apply _parse_file_ok; auto).
  assert (given_source (Some src) = Some src) as Gs.
  { unfold given_source, truthy_source.
    destruct (String.eqb_spec src EmptyString); [contradiction | reflexivity]. }
  assert (forall self, data self = d -> calendar.isleap (year self) = false ->
          _x self = Ok (x_array self) /\ nth_error (x_array self) 0 = Some 0)
    as X.
  { intros self Ed El. split.
    - apply _x_ok, year_fits.
      + unfold sunday_leap. now rewrite El.
      + unfold days_in_year. rewrite El, Ed, Hl. reflexivity.
    - apply x_first. pose proof (first_week_days_range self). lia. }
  unfold __init__. cbv zeta. rewrite Gs.
  destruct (given_year y) as [yr|]; unfold bind, lift, ret; rewrite P.
  - set (self := {| data := d; year := yr;
                    week_load := if bare then false else true |}).
    assert (match_data_and_year self = Ok tt) as Mt.
    { apply match_data_and_year_ok. cbn [data year self].
      rewrite Hy, Hl. split; intros [A B]; discriminate. }
    rewrite Mt. exists self, (x_array self).
    destruct (X self eq_refl Hy) as [X1 X2]. auto.
  - set (self := {| data := d; year := _get_year_from_data d;
                    week_load := if bare then false else true |}).
    exists self, (x_array self).
    assert (calendar.isleap (year self) = false) as El.
    { cbn [year self]. unfold _get_year_from_data. rewrite Hl. reflexivity. }
    destruct (X self eq_refl El) as [X1 X2]. auto.
Qed.

Lemma file_round_trip_365 :
  exists self xs,
    __init__ (one_file "sample.txt" (ones 365)) (Some "sample.txt"%string)
      None false sample_state = Ok (self, sample_state) /\
    data self = ones 365 /\
    _x self = Ok xs /\
    nth_error xs 0 = Some 0.
Proof.
  apply (file_round_trip (one_file "sample.txt" (ones 365)) "sample.txt"
           (ones 365) None false sample_state).
  - reflexivity.
  - reflexivity.
  - discriminate.
  - exact I.
Defined.

(** * Further properties *)

(** ** The coordinates, position by position *)

Section Positions.

Variable self : YearSheet.

Local Abbreviation F := (Z.to_nat (_get_first_week_days self)).
Local Abbreviation L := (Z.to_nat (_get_last_week_days self)).

Lemma x_array_at (i : nat) :
  (i < F + 357 + L)%nat ->
  nth_error (x_array self) i = Some (x_at self (Z.of_nat i)).
Proof.
  intros Hi. pose proof (first_week_days_range self) as R.
  unfold x_at. cbv zeta.
  destruct (Z.ltb_spec (Z.of_nat i) (_get_first_week_days self)) as [A|A].
  - apply x_first. lia.
  - destruct (Z.ltb_spec (Z.of_nat i) (_get_first_week_days self + 357))
      as [B|B].
    + pose proof (Nat.div_mod_eq (i - F) 7) as D.
      pose proof (Nat.mod_upper_bound (i - F) 7 ltac:(lia)) as U.
      replace i with (F + 7 * (((i - F) / 7 + 1) - 1) + (i - F) mod 7)%nat
        at 1 by lia.
      rewrite x_inner by lia. f_equal.
      rewrite Nat2Z.inj_add, Nat2Z.inj_div, Nat2Z.inj_sub by lia.
      rewrite Z2Nat.id by lia. reflexivity.
    + replace i with (F + 357 + (i - (F + 357)))%nat at 1 by lia.
      apply x_last. lia.
Qed.

Lemma y_array_at (i : nat) :
  (i < F + 357 + L)%nat ->
  nth_error (y_array self) i = Some (y_at self (Z.of_nat i)).
Proof.
  intros Hi. pose proof (first_week_days_range self) as R.
  unfold y_at. cbv zeta.
  destruct (Z.ltb_spec (Z.of_nat i) (_get_first_week_days self)) as [A|A].
  - apply y_first. lia.
  - destruct (Z.ltb_spec (Z.of_nat i) (_get_first_week_days self + 357))
      as [B|B].
    + pose proof (Nat.div_mod_eq (i - F) 7) as D.
      pose proof (Nat.mod_upper_bound (i - F) 7 ltac:(lia)) as U.
      replace i with (F + 7 * (((i - F) / 7 + 1) - 1) + (i - F) mod 7)%nat
        at 1 by lia.
      rewrite y_inner by lia. f_equal.
      rewrite Nat2Z.inj_mod, Nat2Z.inj_sub by lia.
      rewrite Z2Nat.id by lia. reflexivity.
    + replace i with (F + 357 + (i - (F + 357)))%nat at 1 by lia.
      rewrite y_last by lia. f_equal. lia.
Qed.

(** Bounds and steps of the closed forms. *)
Lemma x_at_range (i : Z) : 0 <= i -> 0 <= x_at self i <= 52.
Proof.
  intros Hi. pose proof (first_week_days_range self) as R.
  unfold x_at. cbv zeta.
  destruct (Z.ltb_spec i (_get_first_week_days self)); [lia|].
  destruct (Z.ltb_spec i (_get_first_week_days self + 357)); [|lia].
  Z.div_mod_to_equations. lia.
Qed.

Lemma y_at_range (i : Z) :
  0 <= i < _get_first_week_days self + 357 + _get_last_week_days self ->
  1 <= y_at self i <= 7.
Proof.
  intros Hi. pose proof (first_week_days_range self) as R.
  pose proof (last_week_days_range self) as R'.
  unfold y_at. cbv zeta.
  destruct (Z.ltb_spec i (_get_first_week_days self)); [lia|].
  destruct (Z.ltb_spec i (_get_first_week_days self + 357)); [|lia].
  Z.div_mod_to_equations. lia.
Qed.

Lemma at_step (i : Z) :
  0 <= i ->
  (x_at self (i + 1) = x_at self i /\ y_at self (i + 1) = y_at self i + 1) \/
  (x_at self (i + 1) = x_at self i + 1 /\ y_at self (i + 1) = 1).
Proof.
  intros Hi. pose proof (first_week_days_range self) as R.
  unfold x_at, y_at. cbv zeta.
  set (f := _get_first_week_days self) in *.
  destruct (Z.ltb_spec i f), (Z.ltb_spec (i + 1) f); try lia;
    destruct (Z.ltb_spec i (f + 357)), (Z.ltb_spec (i + 1) (f + 357));
    try lia; Z.div_mod_to_equations; lia.
Qed.

(** A cell determines its day. *)
Lemma at_position (i : Z) :
  0 <= i ->
  i = (if x_at self i =? 0 then 0
       else _get_first_week_days self + 7 * (x_at self i - 1))
      + y_at self i - 1.
Proof.
  intros Hi. pose proof (first_week_days_range self) as R.
  unfold x_at, y_at. cbv zeta.
  set (f := _get_first_week_days self) in *.
  destruct (Z.ltb_spec i f); [rewrite Z.eqb_refl; lia|].
  destruct (Z.ltb_spec i (f + 357)).
  - destruct (Z.eqb_spec ((i - f) / 7 + 1) 0);
      Z.div_mod_to_equations; lia.
  - change (52 =? 0) with false. cbv iota. lia.
Qed.

(** The weekday index against the calendar. *)
Lemma y_at_isoweekday (i : Z) :
  0 <= i < _get_first_week_days self + 357 + _get_last_week_days self ->
  y_at self i =
  if i <? _get_first_week_days self
  then isoweekday_of_day (year self) i - calendar.weekday (year self) 1 1
  else isoweekday_of_day (year self) i.
Proof.
  intros Hi. pose proof (last_week_days_range self) as R. revert Hi R.
  unfold y_at, isoweekday_of_day, _get_first_week_days.
  generalize (_get_last_week_days self) as l.
  unfold calendar.weekday. cbv zeta.
  set (o := calendar._ymd2ord (calendar.clamp_year (year self)) 1 1).
  intros l Hi R.
  destruct (Z.ltb_spec i (7 - (o + 6) mod 7));
    [|destruct (Z.ltb_spec i (7 - (o + 6) mod 7 + 357))];
    destruct (Z.eqb_spec ((o + i) mod 7) 0);
    Z.div_mod_to_equations; lia.
Qed.

End Positions.

(** ** Series that fill the grid *)

Section Cells.

Variable self : YearSheet.

Lemma grid_cells_total :
  _get_first_week_days self + 51 * 7 + _get_last_week_days self =
  grid_cells (year self).
Proof. apply week_days_total. Qed.

Lemma fits_cells :
  Z.of_nat (length (data self)) = grid_cells (year self) ->
  length (data self) =
  (Z.to_nat (_get_first_week_days self) + 357
   + Z.to_nat (_get_last_week_days self))%nat.
Proof. intros H. apply fits_nat. now rewrite grid_cells_total. Qed.

Lemma misfits_cells :
  Z.of_nat (length (data self)) <> grid_cells (year self) ->
  length (data self) <>
  (Z.to_nat (_get_first_week_days self) + 357
   + Z.to_nat (_get_last_week_days self))%nat.
Proof.
  intros H E. apply H. rewrite <- grid_cells_total, <- grid_size. lia.
Qed.

End Cells.

Lemma nth_error_combine {A B} (l : list A) (l' : list B) (i : nat) :
  nth_error (combine l l') i =
  match nth_error l i, nth_error l' i with
  | Some a, Some b => Some (a, b)
  | _, _ => None
  end.
Proof.
  revert l' i. induction l as [|a l IH]; intros [|b l'] [|i]; cbn;
    try reflexivity.
  - now destruct (nth_error l i).
  - apply IH.
Qed.

(** X1.  [_x] and [_y] return exactly when the series has as many values as
    the grid has cells (the days of the year, or 359 for a leap year that
    begins on a Sunday); otherwise both raise [AssertionError].  The two
    never disagree. *)
Theorem coordinate_arrays_return (self : YearSheet) :
  if Z.of_nat (length (data self)) =? grid_cells (year self)
  then exists xs ys,
         _x self = Ok xs /\ _y self = Ok ys /\
         length xs = length (data self) /\ length ys = length (data self)
  else _x self = Raise AssertionError /\ _y self = Raise AssertionError.
Proof.
  destruct (Z.eqb_spec (Z.of_nat (length (data self))) (grid_cells (year self)))
    as [E|E].
  - apply fits_cells in E. exists (x_array self), (y_array self).
    rewrite length_x_array, length_y_array.
    repeat split; auto using _x_ok, _y_ok.
  - apply misfits_cells in E.
    split; [now apply _x_raises | now apply _y_raises].
Qed.

(** X2.  On a series that fills the grid, every week index is between 0 and
    52 and every weekday index between 1 and 7; the first day is cell
    (0, 1) and the last day is cell (52, [lastWeekDays]). *)
Theorem coordinates_in_range (self : YearSheet) :
  Z.of_nat (length (data self)) = grid_cells (year self) ->
  exists xs ys,
    _x self = Ok xs /\ _y self = Ok ys /\
    Forall (fun k => 0 <= k <= 52) xs /\
    Forall (fun j => 1 <= j <= 7) ys /\
    nth_error xs 0 = Some 0 /\ nth_error ys 0 = Some 1 /\
    nth_error xs (length (data self) - 1) = Some 52 /\
    nth_error ys (length (data self) - 1) = Some (_get_last_week_days self).
Proof.
  intros H. apply fits_cells in H.
  pose proof (first_week_days_range self) as R.
  pose proof (last_week_days_range self) as R'.
  exists (x_array self), (y_array self).
  split; [now apply _x_ok|]. split; [now apply _y_ok|].
  split; [|split; [|split; [|split; [|split]]]].
  - apply Forall_forall. intros k Hk.
    apply In_nth_error in Hk. destruct Hk as [i Hi].
    assert (i < length (x_array self))%nat as Hl
      by (apply nth_error_Some; congruence).
    rewrite length_x_array in Hl. rewrite x_array_at in Hi by assumption.
    injection Hi as <-. apply x_at_range. lia.
  - apply Forall_forall. intros j Hj.
    apply In_nth_error in Hj. destruct Hj as [i Hi].
    assert (i < length (y_array self))%nat as Hl
      by (apply nth_error_Some; congruence).
    rewrite length_y_array in Hl. rewrite y_array_at in Hi by assumption.
    injection Hi as <-. apply y_at_range. lia.
  - apply x_first. lia.
  - rewrite y_first by lia. reflexivity.
  - rewrite H.
    replace (Z.to_nat (_get_first_week_days self) + 357
             + Z.to_nat (_get_last_week_days self) - 1)%nat
      with (Z.to_nat (_get_first_week_days self) + 357
            + (Z.to_nat (_get_last_week_days self) - 1))%nat by lia.
    apply x_last. lia.
  - rewrite H.
    replace (Z.to_nat (_get_first_week_days self) + 357
             + Z.to_nat (_get_last_week_days self) - 1)%nat
      with (Z.to_nat (_get_first_week_days self) + 357
            + (Z.to_nat (_get_last_week_days self) - 1))%nat by lia.
    rewrite y_last by lia. f_equal. lia.
Qed.

Lemma coordinates_in_range_2021 :
  exists xs ys,
    _x (sheet_of 2021 (ones 365)) = Ok xs /\
    _y (sheet_of 2021 (ones 365)) = Ok ys /\
    Forall (fun k => 0 <= k <= 52) xs /\
    Forall (fun j => 1 <= j <= 7) ys /\
    nth_error xs 0 = Some 0 /\ nth_error ys 0 = Some 1 /\
    nth_error xs 364 = Some 52 /\
    nth_error ys 364 = Some 5.
Proof.
  apply (coordinates_in_range (sheet_of 2021 (ones 365))). reflexivity.
Defined.

(** X3.  On a series that fills the grid, from each day to the next either
    the week index stays and the weekday index grows by one, or the week
    index grows by one and the weekday index restarts at 1. *)
Theorem coordinates_walk (self : YearSheet) :
  Z.of_nat (length (data self)) = grid_cells (year self) ->
  exists xs ys,
    _x self = Ok xs /\ _y self = Ok ys /\
    forall i, (S i < length (data self))%nat ->
      exists k j k' j',
        nth_error xs i = Some k /\ nth_error ys i = Some j /\
        nth_error xs (S i) = Some k' /\ nth_error ys (S i) = Some j' /\
        ((k' = k /\ j' = j + 1) \/ (k' = k + 1 /\ j' = 1)).
Proof.
  intros H. apply fits_cells in H.
  exists (x_array self), (y_array self).
  split; [now apply _x_ok|]. split; [now apply _y_ok|].
  intros i Hi. rewrite H in Hi.
  exists (x_at self (Z.of_nat i)), (y_at self (Z.of_nat i)),
         (x_at self (Z.of_nat (S i))), (y_at self (Z.of_nat (S i))).
  rewrite !x_array_at, !y_array_at by lia.
  repeat split.
  rewrite Nat2Z.inj_succ, <- Z.add_1_r. apply at_step. lia.
Qed.

Lemma coordinates_walk_2021 :
  exists xs ys,
    _x (sheet_of 2021 (ones 365)) = Ok xs /\
    _y (sheet_of 2021 (ones 365)) = Ok ys /\
    forall i, (S i < 365)%nat ->
      exists k j k' j',
        nth_error xs i = Some k /\ nth_error ys i = Some j /\
        nth_error xs (S i) = Some k' /\ nth_error ys (S i) = Some j' /\
        ((k' = k /\ j' = j + 1) \/ (k' = k + 1 /\ j' = 1)).
Proof.
  apply (coordinates_walk (sheet_of 2021 (ones 365))). reflexivity.
Defined.

(** X4.  On a series that fills the grid, no two days share a cell: the
    pairs (week index, weekday index) are pairwise distinct. *)
Theorem cells_distinct (self : YearSheet) :
  Z.of_nat (length (data self)) = grid_cells (year self) ->
  exists xs ys,
    _x self = Ok xs /\ _y self = Ok ys /\ NoDup (combine xs ys).
Proof.
  intros H. apply fits_cells in H.
  exists (x_array self), (y_array self).
  split; [now apply _x_ok|]. split; [now apply _y_ok|].
  apply NoDup_nth_error. intros i j Hi E.
  rewrite length_combine, length_x_array, length_y_array, Nat.min_id in Hi.
  assert (j < length (combine (x_array self) (y_array self)))%nat as Hj.
  { apply nth_error_Some. rewrite <- E. apply nth_error_Some.
    now rewrite length_combine, length_x_array, length_y_array, Nat.min_id. }
  rewrite length_combine, length_x_array, length_y_array, Nat.min_id in Hj.
  rewrite !nth_error_combine, !x_array_at, !y_array_at in E by assumption.
  injection E as Ex Ey.
  pose proof (at_position self (Z.of_nat i) ltac:(lia)) as Pi.
  pose proof (at_position self (Z.of_nat j) ltac:(lia)) as Pj.
  rewrite Ex, Ey in Pi. lia.
Qed.

Lemma cells_distinct_2021 :
  exists xs ys,
    _x (sheet_of 2021 (ones 365)) = Ok xs /\
    _y (sheet_of 2021 (ones 365)) = Ok ys /\ NoDup (combine xs ys).
Proof.
  apply (cells_distinct (sheet_of 2021 (ones 365))). reflexivity.
Defined.

(** X5.  On a series that fills the grid, from the second week on the
    weekday index of a day is its ISO weekday (1 Monday .. 7 Sunday); in the
    first, partial week it is the ISO weekday minus the weekday of January 1
    counted from 0, so it starts at 1 on January 1 whatever that day is. *)
Theorem weekday_index_and_calendar (self : YearSheet) :
  Z.of_nat (length (data self)) = grid_cells (year self) ->
  exists ys,
    _y self = Ok ys /\
    forall i, (i < length (data self))%nat ->
      nth_error ys i =
      Some (if Z.of_nat i <? _get_first_week_days self
            then isoweekday_of_day (year self) (Z.of_nat i)
                 - calendar.weekday (year self) 1 1
            else isoweekday_of_day (year self) (Z.of_nat i)).
Proof.
  intros H. apply fits_cells in H.
  pose proof (first_week_days_range self) as R.
  pose proof (last_week_days_range self) as R'.
  exists (y_array self). split; [now apply _y_ok|].
  intros i Hi. rewrite H in Hi.
  rewrite y_array_at by assumption. f_equal.
  apply y_at_isoweekday. lia.
Qed.

Lemma weekday_index_and_calendar_2021 :
  exists ys,
    _y (sheet_of 2021 (ones 365)) = Ok ys /\
    forall i, (i < 365)%nat ->
      nth_error ys i =
      Some (if Z.of_nat i <? 3
            then isoweekday_of_day 2021 (Z.of_nat i) - 4
            else isoweekday_of_day 2021 (Z.of_nat i)).
Proof.
  apply (weekday_index_and_calendar (sheet_of 2021 (ones 365))). reflexivity.
Defined.

(** ** The frame and its groups *)

Section Groups.

Import pd.





End Groups.

(** X6.  When the series does not fill the grid, [_yearsheet_data_as_df]
    and [_week_load_data] raise [AssertionError]: the assertion of [_x]
    fires before any frame is built. *)
Theorem frame_and_load_assertion (self : YearSheet) :
  Z.of_nat (length (data self)) <> grid_cells (year self) ->
  _yearsheet_data_as_df self = Raise AssertionError /\
  _week_load_data self = Raise AssertionError.
Proof.
  intros E. apply misfits_cells in E.
  unfold _week_load_data, _yearsheet_data_as_df.
  rewrite (_x_raises self E). split; reflexivity.
Qed.

Lemma frame_and_load_assertion_364 :
  _yearsheet_data_as_df (sheet_of 2021 (ones 364)) = Raise AssertionError /\
  _week_load_data (sheet_of 2021 (ones 364)) = Raise AssertionError.
Proof.
  apply (frame_and_load_assertion (sheet_of 2021 (ones 364))).
  vm_compute. discriminate.
Defined.



(** ** Values that compare [>= 0] *)

Section NonNegative.

Local Open Scope float_scope.

Lemma nonneg_leb_zero (v : float) :
  nonneg_sf (Prim2SF v) -> (0 <=? v) = true.
Proof.
  intros H. rewrite leb_spec. now apply nonneg_sf_leb.
Qed.

End NonNegative.

(** ** More on the calendar *)

Section Period.

Import calendar.

Lemma isleap_mod400 (a b : Z) :
  a mod 400 = b mod 400 -> isleap a = isleap b.
Proof.
  intros H. unfold isleap.
  replace (a mod 4) with (b mod 4) by (Z.div_mod_to_equations; lia).
  replace (a mod 100) with (b mod 100) by (Z.div_mod_to_equations; lia).
  now rewrite H.
Qed.

Lemma clamp_year_mod400 (y : Z) : clamp_year y mod 400 = y mod 400.
Proof.
  unfold clamp_year.
  destruct ((MINYEAR <=? y) && (y <=? MAXYEAR)); [reflexivity|].
  Z.div_mod_to_equations; lia.
Qed.

(** The Gregorian cycle: 400 years are 146097 days, a whole number of
    weeks. *)
Lemma days_before_year_mod400 (a b : Z) :
  a mod 400 = b mod 400 ->
  (_days_before_year a + 6) mod 7 = (_days_before_year b + 6) mod 7.
Proof.
  intros H. unfold _days_before_year. cbv zeta.
  Z.div_mod_to_equations; lia.
Qed.

Lemma weekday_mod400 (a b m d : Z) :
  a mod 400 = b mod 400 -> weekday a m d = weekday b m d.
Proof.
  intros H. unfold weekday, _ymd2ord, _days_before_month.
  assert (clamp_year a mod 400 = clamp_year b mod 400) as Hc
    by now rewrite !clamp_year_mod400.
  rewrite (isleap_mod400 _ _ Hc).
  pose proof (days_before_year_mod400 _ _ Hc) as Hd.
  set (r := nth (Z.to_nat m) _DAYS_BEFORE_MONTH 0
            + (if (2 <? m) && isleap (clamp_year b) then 1 else 0)) in *.
  revert Hd. generalize (_days_before_year (clamp_year a)) as p.
  generalize (_days_before_year (clamp_year b)) as q.
  intros q p Hd. Z.div_mod_to_equations; lia.
Qed.

End Period.

(** X9.  [_get_last_week_days] is the ISO weekday of December 31, between 1
    and 7; against the first week it is 8 minus [_get_first_week_days] in a
    common year and one day further round the week in a leap year. *)
Theorem last_week_days_spec (self : YearSheet) :
  _get_last_week_days self = calendar.isoweekday (year self) 12 31 /\
  1 <= _get_last_week_days self <= 7 /\
  1 <= _get_first_week_days self <= 7 /\
  _get_last_week_days self =
  if calendar.isleap (year self)
  then (8 - _get_first_week_days self) mod 7 + 1
  else 8 - _get_first_week_days self.
Proof.
  split; [unfold _get_last_week_days; now rewrite isoweekday_weekday|].
  split; [apply last_week_days_range|].
  split; [apply first_week_days_range|].
  unfold _get_last_week_days, _get_first_week_days.
  rewrite weekday_dec31.
  pose proof (weekday_range (year self) 1 1) as R.
  set (w := calendar.weekday (year self) 1 1) in *.
  destruct (calendar.isleap (year self)); Z.div_mod_to_equations; lia.
Qed.

(** X10.  The grid repeats every 400 years: moving the year of a sheet by a
    multiple of 400 changes neither the two partial weeks nor what
    [match_data_and_year], [_x] and [_y] return. *)
Theorem grid_period_400 (self : YearSheet) (n : Z) :
  let later := {| data := data self; year := year self + 400 * n;
                  week_load := week_load self |} in
  _get_first_week_days later = _get_first_week_days self /\
  _get_last_week_days later = _get_last_week_days self /\
  match_data_and_year later = match_data_and_year self /\
  _x later = _x self /\ _y later = _y self.
Proof.
  cbv zeta.
  assert ((year self + 400 * n) mod 400 = year self mod 400) as Hm
    by (Z.div_mod_to_equations; lia).
  assert (forall m d, calendar.weekday (year self + 400 * n) m d
                      = calendar.weekday (year self) m d) as Hw
    by (intros; now apply weekday_mod400).
  assert (calendar.isleap (year self + 400 * n) = calendar.isleap (year self))
    as Hl by now apply isleap_mod400.
  unfold _x, _y, x_array, y_array, match_data_and_year,
    _get_first_week_days, _get_last_week_days.
  cbn [data year]. rewrite !Hw, Hl. repeat split.
Qed.

(** ** More on the constructor *)

Section ConstructorMore.

Variable fs : Files.

Lemma given_source_none (source : option string) :
  truthy_source source = false -> given_source source = None.
Proof. intros H. unfold given_source. now rewrite H. Qed.

Lemma given_source_some (source : option string) :
  truthy_source source = true -> exists src, given_source source = Some src.
Proof.
  intros H. unfold given_source. rewrite H.
  destruct source as [src|]; [now exists src | discriminate].
Qed.

Lemma given_source_truthy (source : option string) (src : string) :
  given_source source = Some src -> truthy_source source = true.
Proof.
  unfold given_source. destruct (truthy_source source);
    [reflexivity | discriminate].
Qed.

Lemma given_year_truthy (y : option Z) (yr : Z) :
  given_year y = Some yr -> truthy_year y = true.
Proof.
  unfold given_year. destruct (truthy_year y); [reflexivity | discriminate].
Qed.

(** A run of [_generate_random_data] with a positive count. *)
Lemma _generate_random_data_run (n : nat) (s : RandomState) :
  exists d,
    _generate_random_data (S n) s = Ok (d, fun i => s (i + S n)%nat) /\
    length d = S n.
Proof.
  destruct (_generate_random_data_ok n s) as (m & _ & G).
  eexists. split; [exact G|].
  now rewrite length_sub_scalar, length_map, length_seq.
Qed.

Lemma construction_without_source_ok (source : option string)
    (y : option Z) (bare : bool) (s : RandomState) :
  truthy_source source = false ->
  exists self s', __init__ fs source y bare s = Ok (self, s').
Proof.
  intros Hs. unfold __init__. cbv zeta.
  rewrite (given_source_none source Hs).
  destruct (given_year y) as [yr|]; unfold bind, ret.
  - destruct (calendar.isleap yr).
    + destruct (_generate_random_data_run 365 s) as (d & -> & _).
      eexists _, _. reflexivity.
    + destruct (_generate_random_data_run 364 s) as (d & -> & _).
      eexists _, _. reflexivity.
  - destruct (_generate_random_data_run 364 s) as (d & -> & _).
    eexists _, _. reflexivity.
Qed.

End ConstructorMore.

(** X12.  Without a source (none, or the empty string) the constructor
    never raises: it returns a sheet of the given year, or of 2021 when no
    year is given, with one value per day of that year and the load flag
    opposite to [bare], and the generator has moved past exactly that many
    samples. *)
Theorem construction_without_source (fs : Files) (source : option string)
    (y : option Z) (bare : bool) (s : RandomState) :
  truthy_source source = false ->
  exists self s',
    __init__ fs source y bare s = Ok (self, s') /\
    year self = match given_year y with Some yr => yr | None => 2021 end /\
    Z.of_nat (length (data self)) = days_in_year (year self) /\
    week_load self = negb bare /\
    forall i, s' i = s (i + length (data self))%nat.
Proof.
  intros Hs. unfold __init__. cbv zeta.
  rewrite (given_source_none source Hs).
  destruct (given_year y) as [yr|]; unfold bind, ret.
  - destruct (calendar.isleap yr) eqn:El.
    + destruct (_generate_random_data_run 365 s) as (d & -> & Hl).
      eexists _, _. split; [reflexivity|]. cbn [data year week_load].
      unfold days_in_year. rewrite El, Hl.
      repeat split; destruct bare; reflexivity.
    + destruct (_generate_random_data_run 364 s) as (d & -> & Hl).
      eexists _, _. split; [reflexivity|]. cbn [data year week_load].
      unfold days_in_year. rewrite El, Hl.
      repeat split; destruct bare; reflexivity.
  - destruct (_generate_random_data_run 364 s) as (d & -> & Hl).
    eexists _, _. split; [reflexivity|]. cbn [data year week_load].
    unfold _get_year_from_data. rewrite Hl.
    repeat split; destruct bare; reflexivity.
Qed.

Lemma construction_without_source_empty_name :
  exists self s',
    __init__ (one_file "sample.txt" (ones 365)) (Some EmptyString)
      (Some 2024) true sample_state = Ok (self, s') /\
    year self = 2024 /\
    Z.of_nat (length (data self)) = days_in_year (year self) /\
    week_load self = false /\
    forall i, s' i = sample_state (i + length (data self))%nat.
Proof.
  apply (construction_without_source (one_file "sample.txt" (ones 365))
           (Some EmptyString) (Some 2024) true sample_state).
  reflexivity.
Defined.

(** X13.  When the constructor raises, a source was given, and the error is
    the load error of the file, the size error, or, only with a year given,
    the mismatch error; it is never an [AssertionError]. *)
Theorem constructor_errors (fs : Files) (source : option string)
    (y : option Z) (bare : bool) (s : RandomState) (e : exn) :
  __init__ fs source y bare s = Raise e ->
  truthy_source source = true /\
  (e = LoadError \/ e = ValueError size_msg \/
   (e = ValueError mismatch_msg /\ truthy_year y = true)).
Proof.
  destruct (truthy_source source) eqn:Ts.
  - intros H. split; [reflexivity|].
    destruct (given_source_some source Ts) as [src Gs].
    revert H. unfold __init__. cbv zeta. rewrite Gs.
    destruct (given_year y) as [yr|] eqn:Gy; unfold bind, lift, ret.
    + destruct (_parse_file fs src) as [d|e'] eqn:P.
      * destruct (match_data_and_year _) as [[]|e''] eqn:Mt; [discriminate|].
        intros [= <-]. apply match_data_and_year_raises in Mt.
        right. right. split; [exact Mt|].
        now apply given_year_truthy in Gy.
      * intros [= <-]. apply _parse_file_raises in P. tauto.
    + destruct (_parse_file fs src) as [d|e'] eqn:P; [discriminate|].
      intros [= <-]. apply _parse_file_raises in P. tauto.
  - intros H. exfalso.
    destruct (construction_without_source_ok fs source y bare s Ts)
      as (self & s' & E).
    congruence.
Qed.

Lemma constructor_errors_mismatch :
  truthy_source (Some "data366.txt"%string) = true /\
  (ValueError mismatch_msg = LoadError \/
   ValueError mismatch_msg = ValueError size_msg \/
   (ValueError mismatch_msg = ValueError mismatch_msg /\
    truthy_year (Some 2019) = true)).
Proof.
  apply (constructor_errors (one_file "data366.txt" (ones 366))
           (Some "data366.txt"%string) (Some 2019) false sample_state
           (ValueError mismatch_msg)).
  vm_compute. reflexivity.
Defined.

(** X14.  A year of 0 counts as no year and an empty source name as no
    source: the constructor does exactly what it does without them, so a
    365-value file with year 0 gives a sheet of 2021 rather than a mismatch
    with the leap year 0. *)
Theorem falsy_arguments (fs : Files) (source : option string)
    (y : option Z) (bare : bool) (s : RandomState) :
  __init__ fs source (Some 0) bare s = __init__ fs source None bare s /\
  __init__ fs (Some EmptyString) y bare s = __init__ fs None y bare s /\
  calendar.isleap 0 = true /\
  forall src d,
    src <> EmptyString -> fs src = Some d -> length d = 365%nat ->
    exists self,
      __init__ fs (Some src) (Some 0) bare s = Ok (self, s) /\
      year self = 2021 /\ data self = d.
Proof.
  split; [reflexivity|]. split; [reflexivity|]. split; [reflexivity|].
  intros src d Hsrc Hd Hl.
  assert (_parse_file fs src = Ok d) as P by (apply _parse_file_ok; auto).
  assert (given_source (Some src) = Some src) as Gs.
  { unfold given_source, truthy_source.
    destruct (String.eqb_spec src EmptyString); [contradiction | reflexivity]. }
  unfold __init__. cbv zeta. rewrite Gs.
  change (given_year (Some 0)) with (@None Z). cbv iota.
  unfold bind, lift, ret. rewrite P.
  eexists. split; [reflexivity|]. cbn [year data].
  unfold _get_year_from_data. rewrite Hl. split; reflexivity.
Qed.

(** X15.  Construction from a file does not touch the random generator: it
    hands the generator back unchanged, and gives the same sheet, or the
    same error, whatever the generator is. *)
Theorem file_construction_ignores_generator (fs : Files)
    (source : option string) (y : option Z) (bare : bool)
    (s1 s2 : RandomState) :
  truthy_source source = true ->
  match __init__ fs source y bare s1 with
  | Ok (self, s') =>
      s' = s1 /\ __init__ fs source y bare s2 = Ok (self, s2)
  | Raise e => __init__ fs source y bare s2 = Raise e
  end.
Proof.
  intros Ts. destruct (given_source_some source Ts) as [src Gs].
  unfold __init__. cbv zeta. rewrite Gs.
  destruct (given_year y) as [yr|]; unfold bind, lift, ret.
  - destruct (_parse_file fs src) as [d|e]; [|reflexivity].
    destruct (match_data_and_year _) as [[]|e]; [split|]; reflexivity.
  - destruct (_parse_file fs src) as [d|e]; [split|]; reflexivity.
Qed.

Lemma file_construction_ignores_generator_sample :
  match __init__ (one_file "sample.txt" (ones 365))
          (Some "sample.txt"%string) (Some 2019) false sample_state with
  | Ok (self, s') =>
      s' = sample_state /\
      __init__ (one_file "sample.txt" (ones 365))
        (Some "sample.txt"%string) (Some 2019) false (fun _ => 0%float)
      = Ok (self, fun _ => 0%float)
  | Raise e =>
      __init__ (one_file "sample.txt" (ones 365))
        (Some "sample.txt"%string) (Some 2019) false (fun _ => 0%float)
      = Raise e
  end.
Proof.
  apply (file_construction_ignores_generator
           (one_file "sample.txt" (ones 365)) (Some "sample.txt"%string)
           (Some 2019) false sample_state (fun _ => 0%float)).
  reflexivity.
Defined.

(** X16.  Called with neither a source nor a year, the constructor returns
    a sheet of 2021 with 365 values that can always be drawn: [_x] and [_y]
    return 365 entries each and the weekly load has one row for each of the
    week indices 0 to 52, in that order. *)
Theorem default_sheet_draws (fs : Files) (source : option string)
    (y : option Z) (bare : bool) (s : RandomState) :
  truthy_source source = false -> truthy_year y = false ->
  exists self s' xs ys rows,
    __init__ fs source y bare s = Ok (self, s') /\
    year self = 2021 /\ length (data self) = 365%nat /\
    _x self = Ok xs /\ _y self = Ok ys /\
    length xs = 365%nat /\ length ys = 365%nat /\
    _week_load_data self = Ok rows /\
    map fst rows = np.arange 0 53.
Proof.
  intros Ts Ty.
  destruct (construction_without_source_ok fs source y bare s Ts)
    as (self & s' & Hi).
  pose proof (constructed_size _ _ _ _ _ _ _ Hi) as Hsz.
  pose proof (__init___ok _ _ _ _ _ _ _ Hi) as [_ H].
  rewrite (given_source_none source Ts) in H.
  assert (given_year y = None) as Gy by (unfold given_year; now rewrite Ty).
  rewrite Gy in H. destruct H as [Hl Hy].
  assert (sunday_leap (year self) = false) as Sl by now rewrite Hy.
  pose proof (year_fits self Sl Hsz) as Hf.
  exists self, s', (x_array self), (y_array self). eexists.
  split; [exact Hi|]. split; [exact Hy|]. split; [exact Hl|].
  split; [now apply _x_ok|]. split; [now apply _y_ok|].
  split; [now rewrite length_x_array, <- Hf|].
  split; [now rewrite length_y_array, <- Hf|].
  split; [now apply _week_load_data_ok|].
  rewrite map_map. apply map_id.
Qed.

Lemma default_sheet_draws_sample :
  exists self s' xs ys rows,
    __init__ (one_file "sample.txt" (ones 365)) None None false sample_state
    = Ok (self, s') /\
    year self = 2021 /\ length (data self) = 365%nat /\
    _x self = Ok xs /\ _y self = Ok ys /\
    length xs = 365%nat /\ length ys = 365%nat /\
    _week_load_data self = Ok rows /\
    map fst rows = np.arange 0 53.
Proof.
  apply (default_sheet_draws (one_file "sample.txt" (ones 365)) None None
           false sample_state); reflexivity.
Defined.

(** X17.  [match_data_and_year] does not check the size itself: a series
    whose length is neither 365 nor 366 passes it for every year; unless the
    length is 359, [_x] and [_y] then raise [AssertionError]. *)
Theorem match_data_and_year_other_sizes (self : YearSheet) :
  length (data self) <> 365%nat -> length (data self) <> 366%nat ->
  match_data_and_year self = Ok tt /\
  (length (data self) <> 359%nat ->
   _x self = Raise AssertionError /\ _y self = Raise AssertionError).
Proof.
  intros H1 H2. split.
  - apply match_data_and_year_ok. split; intros [A _]; contradiction.
  - intros H3.
    assert (Z.of_nat (length (data self)) <> grid_cells (year self)) as N.
    { unfold grid_cells, days_in_year.
      destruct (sunday_leap (year self));
        [|destruct (calendar.isleap (year self))]; lia. }
    apply misfits_cells in N.
    split; [now apply _x_raises | now apply _y_raises].
Qed.

Lemma match_data_and_year_100_values :
  match_data_and_year (sheet_of 2021 (ones 100)) = Ok tt /\
  (length (data (sheet_of 2021 (ones 100))) <> 359%nat ->
   _x (sheet_of 2021 (ones 100)) = Raise AssertionError /\
   _y (sheet_of 2021 (ones 100)) = Raise AssertionError).
Proof.
  apply (match_data_and_year_other_sizes (sheet_of 2021 (ones 100)));
    vm_compute; discriminate.
Defined.

(** ** Synthetic sheets *)

Section Synthetic.

Lemma generated_nonneg (n : nat) (s : RandomState) :
  Forall (fun v => is_finite v = true) (map s (seq 0 (S n))) ->
  exists d,
    _generate_random_data (S n) s = Ok (d, fun i => s (i + S n)%nat) /\
    length d = S n /\
    Forall (fun v => nonneg_sf (Prim2SF v)) d.
Proof.
  intros Hf.
  destruct (_generate_random_data_ok n s) as (m & Hm & G).
  destruct (shifted_series _ m Hf Hm) as [Hnn _].
  eexists. split; [exact G|]. split; [|exact Hnn].
  now rewrite length_sub_scalar, length_map, length_seq.
Qed.

Lemma finite_prefix (s : RandomState) :
  forallb is_finite (map s (seq 0 366)) = true ->
  Forall (fun v => is_finite v = true) (map s (seq 0 366)) /\
  Forall (fun v => is_finite v = true) (map s (seq 0 365)).
Proof.
  intros H. rewrite forallb_forall in H. rewrite <- Forall_forall in H.
  split; [exact H|].
  change 366%nat with (365 + 1)%nat in H.
  rewrite seq_app, map_app in H. apply Forall_app in H. now destruct H.
Qed.

End Synthetic.

(** X18.  With finite samples, a sheet constructed without a source has
    only values that compare [>= 0]; and unless its year is a leap year that
    begins on a Sunday, [_x] and [_y] return arrays as long as the series
    and the weekly load has one row for each of the week indices 0 to 52. *)
Theorem synthetic_sheet_values (fs : Files) (source : option string)
    (y : option Z) (bare : bool) (s : RandomState) :
  truthy_source source = false ->
  forallb is_finite (map s (seq 0 366)) = true ->
  exists self s',
    __init__ fs source y bare s = Ok (self, s') /\
    Forall (fun v => (0 <=? v)%float = true) (data self) /\
    (sunday_leap (year self) = false ->
     exists xs ys rows,
       _x self = Ok xs /\ _y self = Ok ys /\
       length xs = length (data self) /\ length ys = length (data self) /\
       _week_load_data self = Ok rows /\
       map fst rows = np.arange 0 53).
Proof.
  intros Ts Hf. apply finite_prefix in Hf. destruct Hf as [H366 H365].
  assert (exists self s',
            __init__ fs source y bare s = Ok (self, s') /\
            Forall (fun v => nonneg_sf (Prim2SF v)) (data self)) as H.
  { unfold __init__. cbv zeta. rewrite (given_source_none source Ts).
    destruct (given_year y) as [yr|]; unfold bind, ret;
      [destruct (calendar.isleap yr)|].
    - destruct (generated_nonneg 365 s H366) as (d & -> & _ & Hn).
      eexists _, _. split; [reflexivity | exact Hn].
    - destruct (generated_nonneg 364 s H365) as (d & -> & _ & Hn).
      eexists _, _. split; [reflexivity | exact Hn].
    - destruct (generated_nonneg 364 s H365) as (d & -> & _ & Hn).
      eexists _, _. split; [reflexivity | exact Hn]. }
  destruct H as (self & s' & Hi & Hn).
  exists self, s'. split; [exact Hi|]. split.
  - eapply Forall_impl; [|exact Hn]. intros v Hv. now apply nonneg_leb_zero.
  - intros Sl.
    pose proof (year_fits self Sl (constructed_size _ _ _ _ _ _ _ Hi)) as Hfit.
    exists (x_array self), (y_array self). eexists.
    split; [now apply _x_ok|]. split; [now apply _y_ok|].
    split; [now rewrite length_x_array|].
    split; [now rewrite length_y_array|].
    split; [now apply _week_load_data_ok|].
    rewrite map_map. apply map_id.
Qed.

Lemma synthetic_sheet_values_2023 :
  exists self s',
    __init__ (one_file "sample.txt" (ones 365)) None (Some 2023) false
      sample_state = Ok (self, s') /\
    Forall (fun v => (0 <=? v)%float = true) (data self) /\
    (sunday_leap (year self) = false ->
     exists xs ys rows,
       _x self = Ok xs /\ _y self = Ok ys /\
       length xs = length (data self) /\ length ys = length (data self) /\
       _week_load_data self = Ok rows /\
       map fst rows = np.arange 0 53).
Proof.
  apply (synthetic_sheet_values (one_file "sample.txt" (ones 365)) None
           (Some 2023) false sample_state).
  - reflexivity.
  - vm_compute. reflexivity.
Defined.
